(** * The reconciliation engine of the orchestrator

    A shallow embedding of [orchestrator/consensus/handler.go]: the two
    entry points [processPandoraHeader] and [processVanguardShardInfo],
    the commit step [insertIntoChain] and the helpers that live in the
    same file.  The service is a record that is threaded through every
    call; the confirmation feed is the list of events sent so far.

    The store, the two caches and the reorg helpers are Go interfaces or
    methods whose bodies live in other packages; they are type classes
    here, and module [Mem] gives an in-memory instance of each. *)

From stdpp Require Import base option list gmap strings.
From Stdlib Require Import NArith ZArith Lia.

Local Open Scope N_scope.

(** ** Machine integers, hashes and errors *)

(** [uint64] values are naturals below [2^64]; arithmetic wraps. *)
Definition wrap64 (n : N) : N := n mod 2 ^ 64.

(** [a - b] on [uint64]. *)
Definition sub64 (a b : N) : N :=
  Z.to_N ((Z.of_N a - Z.of_N b) mod 2 ^ 64)%Z.

(** [common.Hash]: 32 bytes, read as a big-endian number. *)
Definition Hash : Type := N.

Definition zeroHash : Hash := 0.

Definition bigEndian (b : list Byte.byte) : N :=
  fold_left (fun acc x => acc * 256 + Byte.to_N x) b 0.

(** [common.BytesToHash]: keeps the last 32 bytes, pads on the left. *)
Definition BytesToHash (b : list Byte.byte) : Hash := bigEndian b mod 2 ^ 256.

(** Go's [error]: [errors.New] and [errors.Wrap]. *)
Inductive error : Type :=
| errors_New (msg : string)
| errors_Wrap (cause : error) (msg : string).

Inductive result (A : Type) : Type :=
| Ok (a : A)
| Err (e : error).
Arguments Ok {A} a.
Arguments Err {A} e.

(** How a call ends: it returns an [error] (possibly nil) or panics. *)
Inductive outcome : Type :=
| Return (err : option error)
| Panic (msg : string).

(** ** Data model *)

(** Modelled from the spec: the execution header ([eth1Types.Header] is
    not in the repository); [hHash] is what [Header.Hash()] returns, and
    [hExtraSlot] and [hBlobId] are the consensus slot and the blob id
    that the header's extra data encodes. *)
Record Header : Type := mkHeader {
  hNumber : N;
  hHash : Hash;
  hParentHash : Hash;
  hTxHash : Hash;
  hReceiptHash : Hash;
  hRoot : Hash;
  hGasLimit : N;
  hGasUsed : N;
  hTime : N;
  hExtraSlot : N;
  hBlobId : N;
  hStateRootHash : Hash
}.

(** Modelled from the spec: the shard info embedded in a vanguard block,
    with the ten fields mirrored from the execution header, and
    [siSlot], the slot of the block that embeds it, which the structural
    compare sets against the slot in the header's extra data. *)
Record ShardInfo : Type := mkShardInfo {
  siBlockNumber : N;
  siHash : list Byte.byte;
  siTxHash : Hash;
  siReceiptHash : Hash;
  siStateRoot : Hash;
  siGasLimit : N;
  siGasUsed : N;
  siTime : N;
  siBlobId : N;
  siStateRootHash : Hash;
  siSlot : N
}.

Record PandoraHeaderInfo : Type := mkPandoraHeaderInfo {
  pSlot : N;
  pHeader : Header
}.

Record VanguardShardInfo : Type := mkVanguardShardInfo {
  vSlot : N;
  vBlockRoot : Hash;
  vParentRoot : Hash;
  vFinalizedSlot : N;
  vFinalizedEpoch : N;
  vShardInfo : ShardInfo
}.

(** Modelled from the spec: one execution shard of a verified record. *)
Record ExecutionShard : Type := mkExecutionShard {
  esHash : Hash;
  esParentHash : Hash
}.

(** Modelled from the spec: the verified record [types.MultiShardInfo],
    [{ slot, slot_block_root, parent_root, shards }]. *)
Record MultiShardInfo : Type := mkMultiShardInfo {
  msSlot : N;
  msSlotBlockRoot : Hash;
  msParentRoot : Hash;
  msShards : list ExecutionShard
}.

(** Modelled from the spec: the accessors of [types.MultiShardInfo];
    a record without a shard counts as nil. *)
Definition NotNil (m : MultiShardInfo) : bool :=
  match msShards m with [] => false | _ :: _ => true end.

Definition IsNil (m : MultiShardInfo) : bool := negb (NotNil m).

Definition GetPanShardRoot (m : MultiShardInfo) : Hash :=
  match msShards m with [] => zeroHash | sh :: _ => esHash sh end.

Definition GetVanSlotRoot (m : MultiShardInfo) : Hash := msSlotBlockRoot m.

(** A pointer to a record: [None] is Go's nil. *)
Definition ptrIsNil (m : option MultiShardInfo) : bool :=
  match m with None => true | Some m => IsNil m end.

Definition ptrNotNil (m : option MultiShardInfo) : bool :=
  match m with None => false | Some m => NotNil m end.

Record ReorgStatus : Type := mkReorgStatus {
  rSlot : N;
  rBlockRoot : Hash;
  rParentStepId : N;
  rParentShardInfo : option MultiShardInfo;
  rPandoraHash : Hash;
  rHasResolved : bool
}.

Inductive Status : Type := Pending | Verified | Invalid | Skipped.

Record SlotInfoWithStatus : Type := mkSlotInfoWithStatus {
  PandoraHeaderHash : Hash;
  VanguardBlockHash : Hash;
  SlotStatus : Status
}.

Record PanCacheInsertParams : Type := mkPanCacheInsertParams {
  pcpCurrentVerifiedHeader : Header;
  pcpLastVerifiedShardInfo : option MultiShardInfo
}.

Record VanCacheInsertParams : Type := mkVanCacheInsertParams {
  vcpDisableDelete : bool;
  vcpCurrentShardInfo : VanguardShardInfo;
  vcpLastVerifiedShardInfo : option MultiShardInfo
}.

(** Modelled from the spec: the cache entries, [{ header,
    last_verified_shard_info, in_progress }] and the vanguard twin. *)
Record PanCacheEntry : Type := mkPanCacheEntry {
  GetPanHeader : option Header;
  panLastVerified : option MultiShardInfo;
  panInProgress : bool
}.

Record VanCacheEntry : Type := mkVanCacheEntry {
  GetVanShard : option VanguardShardInfo;
  vanLastVerified : option MultiShardInfo;
  vanDisableDelete : bool;
  vanInProgress : bool
}.

(** ** The collaborators of the handler, as interfaces *)

(** [db.Database]: reads are functions of the store, writes return the
    new store and an [error]. *)
Class Database (D : Type) : Type := {
  LatestStepID : D → N;
  VerifiedShardInfo : N → D → result (option MultiShardInfo);
  GetStepIdBySlot : N → D → result N;
  SaveVerifiedShardInfo : N → MultiShardInfo → D → D * option error;
  SaveLatestStepID : N → D → D * option error;
  SaveSlotStepIndex : N → N → D → D * option error;
  FinalizedSlot : D → N;
  FinalizedEpoch : D → N;
  SaveFinalizedSlot : N → D → D * option error;
  SaveFinalizedEpoch : N → D → D * option error
}.

(** The pandora header cache. *)
Class PandoraCache (PC : Type) : Type := {
  panPut : N → PanCacheInsertParams → PC → PC * option error;
  panMarkInProgress : N → PC → PC * option error;
  panMarkNotInProgress : N → PC → PC;
  panGet : N → PC → option PanCacheEntry;
  panForceDelSlot : N → PC → PC
}.

(** The vanguard shard cache. *)
Class VanguardCache (VC : Type) : Type := {
  vanPut : N → VanCacheInsertParams → VC → VC * option error;
  vanMarkInProgress : N → VC → VC * option error;
  vanMarkNotInProgress : N → VC → VC;
  vanGet : N → VC → option VanCacheEntry;
  vanForceDelSlot : N → VC → VC
}.

(** The functions of package [consensus] and [utils] that the handler
    calls and whose bodies are in other files. *)
Class Verification (D : Type) : Type := {
  compareShardingInfo : Header → ShardInfo → bool;
  PrepareMultiShardData : VanguardShardInfo → Header → N → N → MultiShardInfo;
  checkReorg : VanguardShardInfo → option MultiShardInfo → N → D →
               result (option MultiShardInfo * N);
  processReorg : N → option MultiShardInfo → D → D * option error
}.

(** Modelled from the spec: the two constants of package [consensus]
    that [insertIntoChain] passes on (one shard per vanguard block). *)
Definition TotalExecutionShardCount : N := 1.
Definition ShardsPerVanBlock : N := 1.

(** Modelled from the spec: [verifyShardInfo], the parent-link compare:
    genesis, or the top shard's hash is the header's parent hash and the
    record's block root is the shard's parent root. *)
Definition verifyShardInfo (latestShardInfo : option MultiShardInfo)
    (header : Header) (vanShardInfo : VanguardShardInfo) (latestStepId : N) : bool :=
  (latestStepId =? 0) ||
  match latestShardInfo with
  | Some latest =>
      match msShards latest with
      | sh :: _ => (esHash sh =? hParentHash header) &&
                   (msSlotBlockRoot latest =? vParentRoot vanShardInfo)
      | [] => false
      end
  | None => false
  end.

(** ** The service *)

Record Service (D PC VC : Type) : Type := mkService {
  db : D;
  panHeaderCache : PC;
  vanShardCache : VC;
  curReorgStatus : option ReorgStatus;
  verifiedSlotInfoFeed : list SlotInfoWithStatus;
  genesisTime : N;
  secondsPerSlot : N
}.
Arguments mkService {D PC VC}.
Arguments db {D PC VC}.
Arguments panHeaderCache {D PC VC}.
Arguments vanShardCache {D PC VC}.
Arguments curReorgStatus {D PC VC}.
Arguments verifiedSlotInfoFeed {D PC VC}.
Arguments genesisTime {D PC VC}.
Arguments secondsPerSlot {D PC VC}.

Section Handler.
Context {D PC VC : Type}.
Context `{!Database D, !PandoraCache PC, !VanguardCache VC, !Verification D}.

Abbreviation Svc := (Service D PC VC).

Definition withDB (s : Svc) (d : D) : Svc :=
  mkService d (panHeaderCache s) (vanShardCache s) (curReorgStatus s)
            (verifiedSlotInfoFeed s) (genesisTime s) (secondsPerSlot s).

Definition withPanCache (s : Svc) (c : PC) : Svc :=
  mkService (db s) c (vanShardCache s) (curReorgStatus s)
            (verifiedSlotInfoFeed s) (genesisTime s) (secondsPerSlot s).

Definition withVanCache (s : Svc) (c : VC) : Svc :=
  mkService (db s) (panHeaderCache s) c (curReorgStatus s)
            (verifiedSlotInfoFeed s) (genesisTime s) (secondsPerSlot s).

Definition withReorgStatus (s : Svc) (r : option ReorgStatus) : Svc :=
  mkService (db s) (panHeaderCache s) (vanShardCache s) r
            (verifiedSlotInfoFeed s) (genesisTime s) (secondsPerSlot s).

(** [publishBlockConfirmation]: one more event on the feed. *)
Definition publishBlockConfirmation (blockHash slotHash : Hash) (status : Status)
    (s : Svc) : Svc :=
  mkService (db s) (panHeaderCache s) (vanShardCache s) (curReorgStatus s)
            (verifiedSlotInfoFeed s ++ [mkSlotInfoWithStatus blockHash slotHash status])
            (genesisTime s) (secondsPerSlot s).

(** [getShardingInfo]: both read errors become nil. *)
Definition getShardingInfo (slot : N) (s : Svc) : option MultiShardInfo :=
  match GetStepIdBySlot slot (db s) with
  | Err _ => None
  | Ok stepId =>
      match VerifiedShardInfo stepId (db s) with
      | Err _ => None
      | Ok shardInfo => shardInfo
      end
  end.

(** [writeShardInfoInDB]: record, head pointer, slot index, in that
    order; the first failing write ends the call. *)
Definition writeShardInfoInDB (shardInfo : MultiShardInfo) (d : D) : D * option error :=
  let latestStepId := LatestStepID d in
  let nextStepId := wrap64 (latestStepId + 1) in
  match SaveVerifiedShardInfo nextStepId shardInfo d with
  | (d1, Some err) => (d1, Some err)
  | (d1, None) =>
      match SaveLatestStepID nextStepId d1 with
      | (d2, Some err) => (d2, Some err)
      | (d2, None) =>
          match SaveSlotStepIndex (msSlot shardInfo) nextStepId d2 with
          | (d3, Some err) => (d3, Some err)
          | (d3, None) => (d3, None)
          end
      end
  end.

(** [writeFinalizeInfo]: a save happens only for a strictly greater
    value; a failing save is logged and otherwise ignored. *)
Definition writeFinalizeInfo (finalizeSlot finalizeEpoch : N) (d : D) : D :=
  let curFinalizeSlot := FinalizedSlot d in
  let d1 := if curFinalizeSlot <? finalizeSlot
            then fst (SaveFinalizedSlot finalizeSlot d) else d in
  let curFinalizeEpoch := FinalizedEpoch d1 in
  if curFinalizeEpoch <? finalizeEpoch
  then fst (SaveFinalizedEpoch finalizeEpoch d1) else d1.

(** The guard of the reorg step of [insertIntoChain]. *)
Definition reorgPending (vanShardInfo : VanguardShardInfo) (r : ReorgStatus) : bool :=
  (rSlot r =? vSlot vanShardInfo) &&
  (rBlockRoot r =? vBlockRoot vanShardInfo) &&
  negb (rHasResolved r).

Definition markResolved (r : ReorgStatus) : ReorgStatus :=
  mkReorgStatus (rSlot r) (rBlockRoot r) (rParentStepId r) (rParentShardInfo r)
                (rPandoraHash r) true.

(** The reorg step of [insertIntoChain] (the block guarded by the
    reorg status): [inl] when [processReorg] failed and the call ends,
    [inr] with the service the append starts from otherwise. *)
Definition reorgStep (vanShardInfo : VanguardShardInfo) (s : Svc) : Svc + Svc :=
  match curReorgStatus s with
  | Some r =>
      if reorgPending vanShardInfo r then
        match processReorg (rParentStepId r) (rParentShardInfo r) (db s) with
        | (d1, Some err) => inl (withDB s d1)
        | (d1, None) => inr (withReorgStatus (withDB s d1) (Some (markResolved r)))
        end
      else inr s
  | None => inr s
  end.

(** [insertIntoChain]. *)
Definition insertIntoChain (vanShardInfo : VanguardShardInfo) (header : Header)
    (latestShardInfo : option MultiShardInfo) (latestStepId : N) (s : Svc)
    : Svc * outcome :=
  if compareShardingInfo header (vShardInfo vanShardInfo) &&
     verifyShardInfo latestShardInfo header vanShardInfo latestStepId
  then
    match reorgStep vanShardInfo s with
    | inl s1 => (s1, Return None)
    | inr s1 =>
        let newShardInfo :=
          PrepareMultiShardData vanShardInfo header
                                TotalExecutionShardCount ShardsPerVanBlock in
        match writeShardInfoInDB newShardInfo (db s1) with
        | (d2, Some err) =>
            (withDB s1 d2, Return (Some (errors_Wrap err "failed to write shard info in db")))
        | (d2, None) =>
            let d3 := writeFinalizeInfo (vFinalizedSlot vanShardInfo)
                                        (vFinalizedEpoch vanShardInfo) d2 in
            let s3 := withDB s1 d3 in
            let s4 := withPanCache s3 (panForceDelSlot (vSlot vanShardInfo) (panHeaderCache s3)) in
            let s5 := withVanCache s4 (vanForceDelSlot (vSlot vanShardInfo) (vanShardCache s4)) in
            (publishBlockConfirmation (hHash header) (vBlockRoot vanShardInfo) Verified s5,
             Return None)
        end
    end
  else
    (publishBlockConfirmation (hHash header) (vBlockRoot vanShardInfo) Invalid s,
     Return None).

(** The short-circuit test of [processPandoraHeader]: the record already
    verified at the header's slot, when its execution hash is the
    header's. *)
Definition pandoraShortCircuit (headerInfo : PandoraHeaderInfo) (s : Svc)
    : option MultiShardInfo :=
  match getShardingInfo (pSlot headerInfo) s with
  | Some shardInfo =>
      if NotNil shardInfo && (GetPanShardRoot shardInfo =? hHash (pHeader headerInfo))
      then Some shardInfo else None
  | None => None
  end.

(** The tip [processPandoraHeader] works with: the parent of the reorg
    in flight when the header is the one that reorg announced. *)
Definition pandoraTip (header : Header) (latest : option MultiShardInfo * N) (s : Svc)
    : option MultiShardInfo * N :=
  match curReorgStatus s with
  | Some r =>
      if rPandoraHash r =? hHash header
      then (rParentShardInfo r, rParentStepId r)
      else latest
  | None => latest
  end.

(** The second half of [processPandoraHeader]: cache the header, mark
    the slot, pair the header with a cached shard; the deferred
    [MarkNotInProgress] runs last. *)
Definition pandoraPair (headerInfo : PandoraHeaderInfo) (latest : option MultiShardInfo * N)
    (s : Svc) : Svc * outcome :=
  let slot := pSlot headerInfo in
  let header := pHeader headerInfo in
  match panPut slot (mkPanCacheInsertParams header (fst latest)) (panHeaderCache s) with
  | (c1, Some err) =>
      (publishBlockConfirmation (hHash header) zeroHash Invalid (withPanCache s c1),
       Return None)
  | (c1, None) =>
      match panMarkInProgress slot c1 with
      | (c2, Some err) => (withPanCache s c2, Return (Some err))
      | (c2, None) =>
          let s2 := withPanCache s c2 in
          let res : Svc * outcome :=
            match vanGet slot (vanShardCache s2) with
            | Some entry =>
                match GetVanShard entry with
                | Some vanShard =>
                    insertIntoChain vanShard header (fst latest) (snd latest) s2
                | None => (s2, Return None)
                end
            | None => (s2, Return None)
            end in
          (withPanCache (fst res) (panMarkNotInProgress slot (panHeaderCache (fst res))),
           snd res)
      end
  end.

(** [processPandoraHeader] past the short-circuit: load the tip, then
    [pandoraPair]. *)
Definition pandoraNormalPath (headerInfo : PandoraHeaderInfo) (s : Svc) : Svc * outcome :=
  let latestStepId := LatestStepID (db s) in
  match VerifiedShardInfo latestStepId (db s) with
  | Err err =>
      (s, Return (Some (errors_Wrap err "DB is corrupted! Failed to retrieve latest shard info")))
  | Ok latestShardInfo =>
      if (0 <? latestStepId) && ptrIsNil latestShardInfo
      then (s, Return (Some (errors_New "nil latest shard info")))
      else pandoraPair headerInfo
                       (pandoraTip (pHeader headerInfo) (latestShardInfo, latestStepId) s) s
  end.

(** [processPandoraHeader]. *)
Definition processPandoraHeader (headerInfo : option PandoraHeaderInfo) (s : Svc)
    : Svc * outcome :=
  match headerInfo with
  | None => (s, Return None)
  | Some headerInfo =>
      match pandoraShortCircuit headerInfo s with
      | Some shardInfo =>
          (publishBlockConfirmation (GetPanShardRoot shardInfo) (GetVanSlotRoot shardInfo)
                                    Verified s,
           Return None)
      | None => pandoraNormalPath headerInfo s
      end
  end.

(** The short-circuit test of [processVanguardShardInfo], as the source
    has it: a verified record at the shard's slot whose consensus root
    is not the shard's block root. *)
Definition vanguardShortCircuit (vanShardInfo : VanguardShardInfo) (s : Svc) : bool :=
  match getShardingInfo (vSlot vanShardInfo) s with
  | Some shardInfo =>
      NotNil shardInfo && negb (GetVanSlotRoot shardInfo =? vBlockRoot vanShardInfo)
  | None => false
  end.

(** The reorg status [processVanguardShardInfo] builds for a shard and
    the ancestor [checkReorg] found. *)
Definition newReorgStatus (vanShardInfo : VanguardShardInfo)
    (parentShardInfo : option MultiShardInfo) (parentStepId : N) : ReorgStatus :=
  mkReorgStatus (vSlot vanShardInfo) (vBlockRoot vanShardInfo) parentStepId
                parentShardInfo (BytesToHash (siHash (vShardInfo vanShardInfo))) false.

(** The guard in front of the assignment to [curReorgStatus]. *)
Definition reorgSlotFree (vanShardInfo : VanguardShardInfo) (s : Svc) : bool :=
  match curReorgStatus s with
  | None => true
  | Some r => rBlockRoot r =? vBlockRoot vanShardInfo
  end.

(** The reorg step of [processVanguardShardInfo]: what [checkReorg]
    found decides the reorg status and the tip used from here on. *)
Definition installReorg (vanShardInfo : VanguardShardInfo)
    (found : option MultiShardInfo * N) (head : option MultiShardInfo * N) (s : Svc)
    : Svc * (option MultiShardInfo * N) :=
  if ptrNotNil (fst found) then
    (if reorgSlotFree vanShardInfo s
     then withReorgStatus s (Some (newReorgStatus vanShardInfo (fst found) (snd found)))
     else s,
     (fst found, snd found))
  else (s, head).

(** The second half of [processVanguardShardInfo]: the slot clock, then
    cache the shard, mark the slot, pair the shard with a cached
    header; [now] is what [time.Now().Unix()] returns, as a [uint64]. *)
Definition vanguardPair (now : N) (vanShardInfo : VanguardShardInfo)
    (head : option MultiShardInfo * N) (s : Svc) : Svc * outcome :=
  let slot := vSlot vanShardInfo in
  if secondsPerSlot s =? 0
  then (s, Panic "runtime error: integer divide by zero")
  else
    let currentSlot := sub64 now (genesisTime s) / secondsPerSlot s in
    let disableDelete := vSlot vanShardInfo <? currentSlot in
    match vanPut slot (mkVanCacheInsertParams disableDelete vanShardInfo (fst head))
                 (vanShardCache s) with
    | (c1, Some err) => (withVanCache s c1, Return None)
    | (c1, None) =>
        match vanMarkInProgress slot c1 with
        | (c2, Some err) => (withVanCache s c2, Return (Some err))
        | (c2, None) =>
            let s2 := withVanCache s c2 in
            let res : Svc * outcome :=
              match panGet slot (panHeaderCache s2) with
              | Some entry =>
                  match GetPanHeader entry with
                  | Some header =>
                      insertIntoChain vanShardInfo header (fst head) (snd head) s2
                  | None => (s2, Return None)
                  end
              | None => (s2, Return None)
              end in
            (withVanCache (fst res) (vanMarkNotInProgress slot (vanShardCache (fst res))),
             snd res)
        end
    end.

(** [processVanguardShardInfo] past the short-circuit: load the tip,
    consult [checkReorg], then [vanguardPair]. *)
Definition vanguardNormalPath (now : N) (vanShardInfo : VanguardShardInfo) (s : Svc)
    : Svc * outcome :=
  let headStepId := LatestStepID (db s) in
  match VerifiedShardInfo headStepId (db s) with
  | Err err =>
      (s, Return (Some (errors_Wrap err "DB is corrupted! Failed to retrieve latest shard info")))
  | Ok headShardInfo =>
      if (0 <? headStepId) && ptrIsNil headShardInfo
      then (s, Return (Some (errors_New "nil latest shard info")))
      else
        match checkReorg vanShardInfo headShardInfo headStepId (db s) with
        | Err err => (s, Return None)
        | Ok found =>
            let r := installReorg vanShardInfo found (headShardInfo, headStepId) s in
            vanguardPair now vanShardInfo (snd r) (fst r)
        end
  end.

(** [processVanguardShardInfo]. *)
Definition processVanguardShardInfo (now : N) (vanShardInfo : option VanguardShardInfo)
    (s : Svc) : Svc * outcome :=
  match vanShardInfo with
  | None => (s, Return None)
  | Some vanShardInfo =>
      if vanguardShortCircuit vanShardInfo s
      then (s, Return None)
      else vanguardNormalPath now vanShardInfo s
  end.

(** The events a call added to the feed. *)
Definition published (before after : Svc) : list SlotInfoWithStatus :=
  drop (length (verifiedSlotInfoFeed before)) (verifiedSlotInfoFeed after).

(** A run of [writeFinalizeInfo] calls, one per [(slot, epoch)]. *)
Definition runFinalize (calls : list (N * N)) (d : D) : D :=
  fold_left (λ d c, writeFinalizeInfo c.1 c.2 d) calls d.

(** What the handler relies on when it saves a finalized slot or epoch:
    the stored value becomes the saved one or, when the save fails,
    stays; the other scalar is not touched. *)
Definition finalityRegisters : Prop :=
  ∀ x d,
    (FinalizedSlot (SaveFinalizedSlot x d).1 = x ∨
     FinalizedSlot (SaveFinalizedSlot x d).1 = FinalizedSlot d) ∧
    FinalizedEpoch (SaveFinalizedSlot x d).1 = FinalizedEpoch d ∧
    (FinalizedEpoch (SaveFinalizedEpoch x d).1 = x ∨
     FinalizedEpoch (SaveFinalizedEpoch x d).1 = FinalizedEpoch d) ∧
    FinalizedSlot (SaveFinalizedEpoch x d).1 = FinalizedSlot d.

(** The three writes of an append all returned nil, from [d] to [d']. *)
Definition appended (record : MultiShardInfo) (d d' : D) : Prop :=
  let next := wrap64 (LatestStepID d + 1) in
  ∃ d1 d2,
    SaveVerifiedShardInfo next record d = (d1, None) ∧
    SaveLatestStepID next d1 = (d2, None) ∧
    SaveSlotStepIndex (msSlot record) next d2 = (d', None).

(** The save of the record, of the head pointer or of the slot index
    returned [err], leaving the store at [d']. *)
Definition appendFailed (record : MultiShardInfo) (d d' : D) (err : error) : Prop :=
  let next := wrap64 (LatestStepID d + 1) in
  SaveVerifiedShardInfo next record d = (d', Some err) ∨
  (∃ d1, SaveVerifiedShardInfo next record d = (d1, None) ∧
         SaveLatestStepID next d1 = (d', Some err)) ∨
  (∃ d1 d2, SaveVerifiedShardInfo next record d = (d1, None) ∧
            SaveLatestStepID next d1 = (d2, None) ∧
            SaveSlotStepIndex (msSlot record) next d2 = (d', Some err)).

(** The four ways [insertIntoChain] can end. *)
Inductive chainResult (v : VanguardShardInfo) (h : Header)
    (latest : option MultiShardInfo) (stepId : N) (s : Svc) : Svc * outcome → Prop :=
| chain_invalid :
    compareShardingInfo h (vShardInfo v) && verifyShardInfo latest h v stepId = false →
    chainResult v h latest stepId s
      (publishBlockConfirmation (hHash h) (vBlockRoot v) Invalid s, Return None)
| chain_reorg_failed (s1 : Svc) :
    compareShardingInfo h (vShardInfo v) && verifyShardInfo latest h v stepId = true →
    reorgStep v s = inl s1 →
    chainResult v h latest stepId s (s1, Return None)
| chain_write_failed (s1 : Svc) (d2 : D) (err : error) :
    compareShardingInfo h (vShardInfo v) && verifyShardInfo latest h v stepId = true →
    reorgStep v s = inr s1 →
    writeShardInfoInDB
      (PrepareMultiShardData v h TotalExecutionShardCount ShardsPerVanBlock) (db s1)
    = (d2, Some err) →
    chainResult v h latest stepId s
      (withDB s1 d2, Return (Some (errors_Wrap err "failed to write shard info in db")))
| chain_verified (s1 : Svc) (d2 : D) :
    compareShardingInfo h (vShardInfo v) && verifyShardInfo latest h v stepId = true →
    reorgStep v s = inr s1 →
    writeShardInfoInDB
      (PrepareMultiShardData v h TotalExecutionShardCount ShardsPerVanBlock) (db s1)
    = (d2, None) →
    chainResult v h latest stepId s
      (publishBlockConfirmation (hHash h) (vBlockRoot v) Verified
         (mkService (writeFinalizeInfo (vFinalizedSlot v) (vFinalizedEpoch v) d2)
                    (panForceDelSlot (vSlot v) (panHeaderCache s1))
                    (vanForceDelSlot (vSlot v) (vanShardCache s1))
                    (curReorgStatus s1) (verifiedSlotInfoFeed s1)
                    (genesisTime s1) (secondsPerSlot s1)),
       Return None).

End Handler.

(** ** An in-memory store, caches and reorg controller *)

Module Mem.

(** Modelled from the spec: the shard store (the implementation of
    [db.Database] is not in the repository), section 4.1: records keyed
    by step id, the slot index, the three scalars.  [readFault] makes
    the reads of a record fail, [writeFault] every write. *)
Record DB : Type := mkDB {
  shards : gmap N MultiShardInfo;
  slotIndex : gmap N N;
  latestStepId : N;
  finalizedSlot : N;
  finalizedEpoch : N;
  readFault : bool;
  writeFault : bool
}.

Definition emptyDB : DB := mkDB ∅ ∅ 0 0 0 false false.

Definition ioError : error := errors_New "i/o failure".

Definition verified (stepId : N) (d : DB) : result (option MultiShardInfo) :=
  if readFault d then Err ioError else Ok (shards d !! stepId).

Definition step_id_by_slot (slot : N) (d : DB) : result N :=
  match slotIndex d !! slot with
  | Some stepId => Ok stepId
  | None => Err (errors_New "no step id for the slot")
  end.

(** Inv. 1 between a record and the one stored just before it. *)
Definition linked (prev next : MultiShardInfo) : bool :=
  (msParentRoot next =? msSlotBlockRoot prev) &&
  match msShards next, msShards prev with
  | n :: _, p :: _ => esParentHash n =? esHash p
  | _, _ => false
  end.

Definition save_verified (stepId : N) (record : MultiShardInfo) (d : DB)
    : DB * option error :=
  if writeFault d then (d, Some ioError)
  else if stepId <=? latestStepId d
  then (d, Some (errors_New "step id is not above the latest"))
  else
    match shards d !! (stepId - 1) with
    | Some prev =>
        if linked prev record
        then (mkDB (<[stepId := record]> (shards d)) (slotIndex d) (latestStepId d)
                   (finalizedSlot d) (finalizedEpoch d) (readFault d) (writeFault d), None)
        else (d, Some (errors_New "parent link broken"))
    | None =>
        (mkDB (<[stepId := record]> (shards d)) (slotIndex d) (latestStepId d)
              (finalizedSlot d) (finalizedEpoch d) (readFault d) (writeFault d), None)
    end.

Definition save_latest_step_id (stepId : N) (d : DB) : DB * option error :=
  if writeFault d then (d, Some ioError)
  else (mkDB (shards d) (slotIndex d) stepId
             (finalizedSlot d) (finalizedEpoch d) (readFault d) (writeFault d), None).

Definition save_slot_step_index (slot stepId : N) (d : DB) : DB * option error :=
  if writeFault d then (d, Some ioError)
  else (mkDB (shards d) (<[slot := stepId]> (slotIndex d)) (latestStepId d)
             (finalizedSlot d) (finalizedEpoch d) (readFault d) (writeFault d), None).

(** Monotone: a value that does not increase the stored one is ignored. *)
Definition save_finalized_slot (slot : N) (d : DB) : DB * option error :=
  if writeFault d then (d, Some ioError)
  else if finalizedSlot d <? slot
  then (mkDB (shards d) (slotIndex d) (latestStepId d)
             slot (finalizedEpoch d) (readFault d) (writeFault d), None)
  else (d, None).

Definition save_finalized_epoch (epoch : N) (d : DB) : DB * option error :=
  if writeFault d then (d, Some ioError)
  else if finalizedEpoch d <? epoch
  then (mkDB (shards d) (slotIndex d) (latestStepId d)
             (finalizedSlot d) epoch (readFault d) (writeFault d), None)
  else (d, None).

(** Removes the records of the steps [from .. to] and their slot-index
    entries. *)
Definition remove_range (from to : N) (d : DB) : DB * option error :=
  if writeFault d then (d, Some ioError)
  else
    (mkDB (filter (λ kv : N * MultiShardInfo, ¬ (from ≤ kv.1 ∧ kv.1 ≤ to)) (shards d))
          (filter (λ kv : N * N, ¬ (from ≤ kv.2 ∧ kv.2 ≤ to)) (slotIndex d))
          (latestStepId d) (finalizedSlot d) (finalizedEpoch d)
          (readFault d) (writeFault d), None).

#[export] Instance memDatabase : Database DB := {
  LatestStepID := latestStepId;
  VerifiedShardInfo := verified;
  GetStepIdBySlot := step_id_by_slot;
  SaveVerifiedShardInfo := save_verified;
  SaveLatestStepID := save_latest_step_id;
  SaveSlotStepIndex := save_slot_step_index;
  FinalizedSlot := finalizedSlot;
  FinalizedEpoch := finalizedEpoch;
  SaveFinalizedSlot := save_finalized_slot;
  SaveFinalizedEpoch := save_finalized_epoch
}.

Definition unknownParent : error := errors_New "unknown parent".
Definition alreadyInProgress : error := errors_New "already in progress".

(** Modelled from the spec: the pandora header cache (package [cache]
    is not in the repository), section 4.2. *)
Definition holdsHeader (parent : Hash) (c : gmap N PanCacheEntry) : bool :=
  existsb (λ kv : N * PanCacheEntry,
             match GetPanHeader kv.2 with
             | Some h => hHash h =? parent
             | None => false
             end) (map_to_list c).

Definition pan_put (slot : N) (p : PanCacheInsertParams) (c : gmap N PanCacheEntry)
    : gmap N PanCacheEntry * option error :=
  let header := pcpCurrentVerifiedHeader p in
  let orphan :=
    negb (holdsHeader (hParentHash header) c) &&
    match pcpLastVerifiedShardInfo p with
    | Some last => negb (GetPanShardRoot last =? hParentHash header)
    | None => false
    end &&
    negb (hNumber header =? 1) in
  if orphan then (c, Some unknownParent)
  else (<[slot := mkPanCacheEntry (Some header) (pcpLastVerifiedShardInfo p) false]> c, None).

Definition pan_mark_in_progress (slot : N) (c : gmap N PanCacheEntry)
    : gmap N PanCacheEntry * option error :=
  match c !! slot with
  | Some e =>
      if panInProgress e then (c, Some alreadyInProgress)
      else (<[slot := mkPanCacheEntry (GetPanHeader e) (panLastVerified e) true]> c, None)
  | None => (c, None)
  end.

Definition pan_mark_not_in_progress (slot : N) (c : gmap N PanCacheEntry)
    : gmap N PanCacheEntry :=
  match c !! slot with
  | Some e => <[slot := mkPanCacheEntry (GetPanHeader e) (panLastVerified e) false]> c
  | None => c
  end.

#[export] Instance memPandoraCache : PandoraCache (gmap N PanCacheEntry) := {
  panPut := pan_put;
  panMarkInProgress := pan_mark_in_progress;
  panMarkNotInProgress := pan_mark_not_in_progress;
  panGet := λ slot c, c !! slot;
  panForceDelSlot := λ slot c, delete slot c
}.

(** Modelled from the spec: the vanguard shard cache, section 4.3: the
    parent root is the last verified block root, or the block root of
    the entry cached one slot below. *)
Definition siblingBelow (slot : N) (parent : Hash) (c : gmap N VanCacheEntry) : bool :=
  match c !! (slot - 1) with
  | Some e =>
      match GetVanShard e with
      | Some v => (0 <? slot) && (vBlockRoot v =? parent)
      | None => false
      end
  | None => false
  end.

Definition van_put (slot : N) (p : VanCacheInsertParams) (c : gmap N VanCacheEntry)
    : gmap N VanCacheEntry * option error :=
  let shard := vcpCurrentShardInfo p in
  let headRoot := match vcpLastVerifiedShardInfo p with
                  | Some last => msSlotBlockRoot last
                  | None => zeroHash
                  end in
  if (vParentRoot shard =? headRoot) || siblingBelow slot (vParentRoot shard) c
  then (<[slot := mkVanCacheEntry (Some shard) (vcpLastVerifiedShardInfo p)
                                  (vcpDisableDelete p) false]> c, None)
  else (c, Some unknownParent).

Definition van_mark_in_progress (slot : N) (c : gmap N VanCacheEntry)
    : gmap N VanCacheEntry * option error :=
  match c !! slot with
  | Some e =>
      if vanInProgress e then (c, Some alreadyInProgress)
      else (<[slot := mkVanCacheEntry (GetVanShard e) (vanLastVerified e)
                                      (vanDisableDelete e) true]> c, None)
  | None => (c, None)
  end.

Definition van_mark_not_in_progress (slot : N) (c : gmap N VanCacheEntry)
    : gmap N VanCacheEntry :=
  match c !! slot with
  | Some e => <[slot := mkVanCacheEntry (GetVanShard e) (vanLastVerified e)
                                        (vanDisableDelete e) false]> c
  | None => c
  end.

#[export] Instance memVanguardCache : VanguardCache (gmap N VanCacheEntry) := {
  vanPut := van_put;
  vanMarkInProgress := van_mark_in_progress;
  vanMarkNotInProgress := van_mark_not_in_progress;
  vanGet := λ slot c, c !! slot;
  vanForceDelSlot := λ slot c, delete slot c
}.

(** Modelled from the spec: [compareShardingInfo], the structural
    compare of section 4.5: the ten mirrored fields ([blob_id],
    [tx_root], [receipt_root], [state_root], [gas_limit], [gas_used],
    [hash], [state_root_hash], [time], [block_number]) agree, and the
    slot in the header's extra data is the shard's slot. *)
Definition compare_sharding_info (h : Header) (si : ShardInfo) : bool :=
  (siBlobId si =? hBlobId h) &&
  (siTxHash si =? hTxHash h) && (siReceiptHash si =? hReceiptHash h) &&
  (siStateRoot si =? hRoot h) && (siGasLimit si =? hGasLimit h) &&
  (siGasUsed si =? hGasUsed h) && (BytesToHash (siHash si) =? hHash h) &&
  (siStateRootHash si =? hStateRootHash h) && (siTime si =? hTime h) &&
  (siBlockNumber si =? hNumber h) &&
  (hExtraSlot h =? siSlot si).

(** Modelled from the spec: [utils.PrepareMultiShardData], the verified
    record of a pair. *)
Definition prepare_multi_shard (v : VanguardShardInfo) (h : Header) (total perBlock : N)
    : MultiShardInfo :=
  mkMultiShardInfo (vSlot v) (vBlockRoot v) (vParentRoot v)
                   [mkExecutionShard (hHash h) (hParentHash h)].

(** Modelled from the spec: the common-ancestor search of section 4.4,
    downward from [stepId]; [fuel] bounds the walk. *)
Fixpoint findAncestor (fuel : nat) (stepId : N) (parentRoot : Hash) (d : DB)
    : option (MultiShardInfo * N) :=
  match fuel with
  | O => None
  | S fuel' =>
      if stepId =? 0 then None
      else match shards d !! stepId with
           | Some m =>
               if msSlotBlockRoot m =? parentRoot then Some (m, stepId)
               else findAncestor fuel' (stepId - 1) parentRoot d
           | None => findAncestor fuel' (stepId - 1) parentRoot d
           end
  end.

(** Modelled from the spec: [checkReorg], the trigger of section 4.4. *)
Definition check_reorg (v : VanguardShardInfo) (head : option MultiShardInfo)
    (headStepId : N) (d : DB) : result (option MultiShardInfo * N) :=
  if headStepId =? 0 then Ok (None, 0)
  else match head with
       | None => Ok (None, 0)
       | Some h =>
           if vParentRoot v =? msSlotBlockRoot h then Ok (None, 0)
           else match findAncestor (N.to_nat headStepId) (headStepId - 1) (vParentRoot v) d with
                | Some (m, stepId) => Ok (Some m, stepId)
                | None => Err (errors_New "no common ancestor")
                end
       end.

(** Modelled from the spec: [processReorg], the rewind of section 4.4. *)
Definition process_reorg (parentStepId : N) (parent : option MultiShardInfo) (d : DB)
    : DB * option error :=
  match remove_range (parentStepId + 1) (latestStepId d) d with
  | (d1, Some err) => (d1, Some err)
  | (d1, None) => save_latest_step_id parentStepId d1
  end.

#[export] Instance memVerification : Verification DB := {
  compareShardingInfo := compare_sharding_info;
  PrepareMultiShardData := prepare_multi_shard;
  checkReorg := check_reorg;
  processReorg := process_reorg
}.

Abbreviation Svc := (Service DB (gmap N PanCacheEntry) (gmap N VanCacheEntry)).

(** A fresh service: empty store and caches, six-second slots. *)
Definition genesis : Svc := mkService emptyDB ∅ ∅ None [] 0 6.

End Mem.

(** ** A small chain, built by the handler itself *)

Module Scenario.
Import Mem.

Definition shardOf (slot number : N) (hash : Byte.byte) (gasUsed : N) : ShardInfo :=
  mkShardInfo number [hash] 0 0 0 0 gasUsed 0 0 0 slot.

Definition headerOf (number : N) (hash parent : Hash) (gasUsed slot : N) : Header :=
  mkHeader number hash parent 0 0 0 0 gasUsed 0 slot 0 0.

(** A vanguard block for [slot]; its shard info is for that slot. *)
Definition vanOf (slot : N) (root parent : Hash) (finalizedSlot finalizedEpoch number : N)
    (hash : Byte.byte) : VanguardShardInfo :=
  mkVanguardShardInfo slot root parent finalizedSlot finalizedEpoch
                      (shardOf slot number hash 0).

(** Slot 1 extends genesis, slots 2 and 3 extend it in turn. *)
Definition v1 : VanguardShardInfo := vanOf 1 0xAA 0 0 0 1 Byte.x11.
Definition h1 : Header := headerOf 1 0x11 0 0 1.
Definition v2 : VanguardShardInfo := vanOf 2 0xBB 0xAA 0 0 2 Byte.x22.
Definition h2 : Header := headerOf 2 0x22 0x11 0 2.
Definition v3 : VanguardShardInfo := vanOf 3 0xCC 0xBB 2 0 3 Byte.x33.
Definition h3 : Header := headerOf 3 0x33 0x22 0 3.

(** A fork: a block for slot 4 on top of slot 1, and its header. *)
Definition v4f : VanguardShardInfo := vanOf 4 0xF4 0xAA 0 0 2 Byte.x4f.
Definition h4f : Header := headerOf 2 0x4F 0x11 0 4.

(** Another fork block for slot 4, on top of slot 1 as well. *)
Definition v4g : VanguardShardInfo := vanOf 4 0xF5 0xAA 0 0 2 Byte.x4e.

(** The slot-2 shard with another block root. *)
Definition v2x : VanguardShardInfo := vanOf 2 0xBC 0xAA 0 0 2 Byte.x22.

(** A header for slot 3 whose gas differs from the shard's. *)
Definition h3bad : Header := headerOf 3 0x33 0x22 1000 3.

(** The header of slot 3 with another slot in its extra data, and with
    another blob id. *)
Definition h3slot : Header := headerOf 3 0x33 0x22 0 999.
Definition h3blob : Header := mkHeader 3 0x33 0x22 0 0 0 0 0 0 3 5 0.

(** Orphans: a header and a shard whose parents nobody knows. *)
Definition hOrphan : Header := headerOf 7 0x77 0xDEAD 0 2.
Definition vOrphan : VanguardShardInfo := vanOf 1 0xA1 0xDEAD 0 0 1 Byte.x11.

Definition now : N := 100.

Definition onVan (v : VanguardShardInfo) (s : Svc) : Svc :=
  fst (processVanguardShardInfo now (Some v) s).

Definition onPan (slot : N) (h : Header) (s : Svc) : Svc :=
  fst (processPandoraHeader (Some (mkPandoraHeaderInfo slot h)) s).

(** Slot 1 committed, shard first. *)
Definition chain1 : Svc := onPan 1 h1 (onVan v1 genesis).

(** Slot 2 committed on top, header first. *)
Definition chain2 : Svc := onVan v2 (onPan 2 h2 chain1).

(** Slot 3 committed on top. *)
Definition chain3 : Svc := onPan 3 h3 (onVan v3 chain2).

(** The fork block has arrived at [chain3]; its header has not. *)
Definition forked : Svc := onVan v4f chain3.

(** A service whose disk refuses every write from now on. *)
Definition breakDisk (s : Svc) : Svc :=
  mkService (mkDB (shards (db s)) (slotIndex (db s)) (latestStepId (db s))
                  (finalizedSlot (db s)) (finalizedEpoch (db s)) false true)
            (panHeaderCache s) (vanShardCache s) (curReorgStatus s)
            (verifiedSlotInfoFeed s) (genesisTime s) (secondsPerSlot s).

(** A service whose records cannot be read any more. *)
Definition blindDisk (s : Svc) : Svc :=
  mkService (mkDB (shards (db s)) (slotIndex (db s)) (latestStepId (db s))
                  (finalizedSlot (db s)) (finalizedEpoch (db s)) true false)
            (panHeaderCache s) (vanShardCache s) (curReorgStatus s)
            (verifiedSlotInfoFeed s) (genesisTime s) (secondsPerSlot s).

(** The reorg status the fork block installs. *)
Definition forkStatus : ReorgStatus :=
  mkReorgStatus 4 0xF4 1 (Some (mkMultiShardInfo 1 0xAA 0 [mkExecutionShard 0x11 0]))
                0x4F false.

Definition rec1 : MultiShardInfo := mkMultiShardInfo 1 0xAA 0 [mkExecutionShard 0x11 0].
Definition rec2 : MultiShardInfo := mkMultiShardInfo 2 0xBB 0xAA [mkExecutionShard 0x22 0x11].
Definition rec3 : MultiShardInfo := mkMultiShardInfo 3 0xCC 0xBB [mkExecutionShard 0x33 0x22].

End Scenario.

(** ** What the handler expects of its collaborators *)

Section Laws.
Context {D PC : Type}.
Context `{!Database D, !PandoraCache PC, !Verification D}.

(** A store that reads back what was written: on the stores that
    satisfy [good] (a store in working order), a record saved without
    error is the one read at its step, the head pointer and the slot
    index hold what was saved last, and no write disturbs what another
    one stored.  Every write keeps [good]. *)
Record lawfulStore (good : D → Prop) : Prop := mkLawfulStore {
  good_save_verified : ∀ n m d, good d → good (SaveVerifiedShardInfo n m d).1;
  good_save_latest : ∀ n d, good d → good (SaveLatestStepID n d).1;
  good_process_reorg : ∀ n p d, good d → good (processReorg n p d).1;
  read_saved_record : ∀ n m d d',
    good d → SaveVerifiedShardInfo n m d = (d', None) →
    VerifiedShardInfo n d' = Ok (Some m);
  save_latest_sets : ∀ n d d',
    good d → SaveLatestStepID n d = (d', None) →
    LatestStepID d' = n ∧ ∀ k, VerifiedShardInfo k d' = VerifiedShardInfo k d;
  save_index_sets : ∀ slot n d d',
    good d → SaveSlotStepIndex slot n d = (d', None) →
    GetStepIdBySlot slot d' = Ok n ∧ LatestStepID d' = LatestStepID d ∧
    ∀ k, VerifiedShardInfo k d' = VerifiedShardInfo k d;
  save_finalized_slot_frame : ∀ x d,
    LatestStepID (SaveFinalizedSlot x d).1 = LatestStepID d ∧
    (∀ k, VerifiedShardInfo k (SaveFinalizedSlot x d).1 = VerifiedShardInfo k d) ∧
    (∀ slot, GetStepIdBySlot slot (SaveFinalizedSlot x d).1 = GetStepIdBySlot slot d);
  save_finalized_epoch_frame : ∀ x d,
    LatestStepID (SaveFinalizedEpoch x d).1 = LatestStepID d ∧
    (∀ k, VerifiedShardInfo k (SaveFinalizedEpoch x d).1 = VerifiedShardInfo k d) ∧
    (∀ slot, GetStepIdBySlot slot (SaveFinalizedEpoch x d).1 = GetStepIdBySlot slot d)
}.

(** The record built from a pair names that pair: its slot, its
    execution hash and its consensus root are the pair's. *)
Definition preparedNamesPair : Prop :=
  ∀ v h,
    let m := PrepareMultiShardData v h TotalExecutionShardCount ShardsPerVanBlock in
    NotNil m = true ∧ GetPanShardRoot m = hHash h ∧
    GetVanSlotRoot m = vBlockRoot v ∧ msSlot m = vSlot v.

(** An evicted slot is gone from the pandora cache. *)
Definition evictionRemoves : Prop :=
  ∀ slot (c : PC), panGet slot (panForceDelSlot slot c) = None.

End Laws.

(** ** Caches with the in-progress mark kept apart *)

Module Held.
Import Mem.

(** Modelled from the spec: the caches again (package [cache] is not in
    the repository), with the in-progress marks of section 4.2 kept in
    a set of slots of their own, so that a put on a marked slot leaves
    the mark in place. *)
Record PanCache : Type := mkPanCache {
  panEntries : gmap N PanCacheEntry;
  panHeld : gset N
}.

Record VanCache : Type := mkVanCache {
  vanEntries : gmap N VanCacheEntry;
  vanHeld : gset N
}.

#[export] Instance heldPandoraCache : PandoraCache PanCache := {
  panPut := λ slot p c,
    ((mkPanCache (pan_put slot p (panEntries c)).1 (panHeld c)),
     (pan_put slot p (panEntries c)).2);
  panMarkInProgress := λ slot c,
    if bool_decide (slot ∈ panHeld c) then (c, Some alreadyInProgress)
    else (mkPanCache (panEntries c) ({[slot]} ∪ panHeld c), None);
  panMarkNotInProgress := λ slot c, mkPanCache (panEntries c) (panHeld c ∖ {[slot]});
  panGet := λ slot c, panEntries c !! slot;
  panForceDelSlot := λ slot c, mkPanCache (delete slot (panEntries c)) (panHeld c)
}.

#[export] Instance heldVanguardCache : VanguardCache VanCache := {
  vanPut := λ slot p c,
    ((mkVanCache (van_put slot p (vanEntries c)).1 (vanHeld c)),
     (van_put slot p (vanEntries c)).2);
  vanMarkInProgress := λ slot c,
    if bool_decide (slot ∈ vanHeld c) then (c, Some alreadyInProgress)
    else (mkVanCache (vanEntries c) ({[slot]} ∪ vanHeld c), None);
  vanMarkNotInProgress := λ slot c, mkVanCache (vanEntries c) (vanHeld c ∖ {[slot]});
  vanGet := λ slot c, vanEntries c !! slot;
  vanForceDelSlot := λ slot c, mkVanCache (delete slot (vanEntries c)) (vanHeld c)
}.

(** A fresh service in which another call is at work on slot 1, on
    both sides. *)
Definition busy : Service DB PanCache VanCache :=
  mkService emptyDB (mkPanCache ∅ {[1]}) (mkVanCache ∅ {[1]}) None [] 0 6.

End Held.

(** ** More services to run the handler on *)

Module Cases.
Import Mem Scenario.

(** A store whose head pointer is at step 1 while no record is stored. *)
Definition headless : Svc := mkService (mkDB ∅ ∅ 1 0 0 false false) ∅ ∅ None [] 0 6.

(** A fresh service configured with slots of zero seconds. *)
Definition stopped : Svc := mkService emptyDB ∅ ∅ None [] 0 0.

(** A shard for slot 5 on top of a block nobody has seen. *)
Definition vStray : VanguardShardInfo :=
  mkVanguardShardInfo 5 0xE5 0xDEAD 0 0 (shardOf 5 5 Byte.x55 0).

(** The in-memory stores in working order. *)
Definition readable (d : DB) : Prop := readFault d = false.

End Cases.

(** ** The container orchestrator

    Package [orchestrator]: the docker daemon is a state [W] that the
    calls of the docker client act on. *)

Module Docker.

Definition CatalystImage : string := "silesiacoin/ssc20-client:v002".
Definition TekuImage : string := "consensys/teku:latest".
Definition CatalystClientName : string := "catalyst".
Definition CatalystContainerName : string := "luksoCatalyst".
Definition LuksoContainerNameSelector : string := "label".
Definition TekuClientName : string := "teku".

Definition catalystArguments : list string :=
  ["./geth"; "--rpc";
   "--rpcapi"; "net,eth,eth2,web3,personal,admin,db,debug,miner,shh,txpool";
   "--rpccorsdomain"; "*";
   "--rpcaddr"; "0.0.0.0";
   "--verbosity"; "5";
   "--txpool.processtxs"; "--txpool.accountslots"; "10000";
   "--txpool.accountqueue"; "20000"]%string.

(** The double quote, as a string. *)
Definition quote : string := String (Ascii.ascii_of_nat 34) EmptyString.

Definition tekuArguments : list string :=
  ["./teku/bin/teku"; "--network=minimal"; "--p2p-enabled=true";
   String.append "--rest-api-host-allowlist="
                 (String.append quote (String.append "*" quote));
   "--rest-api-port=5051"; "--rest-api-enabled=true"; "--metrics-enabled=true"]%string.

(** [types.Container] and [container.ContainerCreateCreatedBody], the
    fields the package reads. *)
Record Container : Type := mkContainer {
  cID : string;
  cImage : string
}.

Record CreatedBody : Type := mkCreatedBody {
  bodyID : string
}.

(** The zero value of a named result. *)
Definition noBody : CreatedBody := mkCreatedBody "".

Record Config : Type := mkConfig {
  cfgUser : string;
  cfgAttachStdin : bool;
  cfgAttachStdout : bool;
  cfgAttachStderr : bool;
  cfgTty : bool;
  cfgOpenStdin : bool;
  cfgStdinOnce : bool;
  cfgEnv : list string;
  cfgCmd : list string;
  cfgImage : string;
  cfgLabels : list (string * string)
}.

(** The calls of [client.Client] the package makes. *)
Class API (W : Type) : Type := {
  ContainerList : W → result (list Container);
  ContainerStop : string → option N → W → W * option error;
  ContainerCreate : Config → W → W * (CreatedBody * option error);
  ContainerStart : string → W → W * option error
}.

(** [dockerCli] is a pointer: [None] is nil. *)
Inductive Client : Type := theClient.

Record Orchestrator : Type := mkOrchestrator {
  dockerCli : option Client
}.

(** A call is done with its results, or it panics. *)
Inductive run (A : Type) : Type :=
| Done (a : A)
| Panics (msg : string).
Arguments Done {A} a.
Arguments Panics {A} msg.

Section Calls.
Context {W : Type} `{!API W}.

(** [assureDockerClient]. *)
Definition assureDockerClient (o : Orchestrator) : run Client :=
  match dockerCli o with
  | None =>
      Panics "orchestratorClient only works in docker mode for now, please use New() func"
  | Some c => Done c
  end.

(** [findRunningContainerByImage]. *)
Definition findRunningContainerByImage (o : Orchestrator) (imageName : string) (w : W)
    : run (list Container * option error) :=
  match assureDockerClient o with
  | Panics msg => Panics msg
  | Done _ =>
      match ContainerList w with
      | Err err => Done ([], Some err)
      | Ok allContainers =>
          Done (fold_left
                  (λ containerList runningContainer,
                     if String.eqb imageName (cImage runningContainer)
                     then containerList ++ [runningContainer]
                     else containerList)
                  allContainers [],
                None)
      end
  end.

(** [isContainerRunningWithImage]. *)
Definition isContainerRunningWithImage (o : Orchestrator) (imageName : string) (w : W)
    : run (option error) :=
  match findRunningContainerByImage o imageName w with
  | Panics msg => Panics msg
  | Done (_, Some err) => Done (Some err)
  | Done (imageList, None) =>
      if (0 <? length imageList)%nat
      then Done (Some (errors_New
                         (String.append "container from image "
                            (String.append CatalystImage
                                           " should not be running in docker"))))
      else Done None
  end.

(** [stopContainers]: the loop goes on after a failing stop. *)
Definition stopContainers (o : Orchestrator) (containerList : list Container)
    (timeout : option N) (w : W) : run (W * (option error * list error)) :=
  match assureDockerClient o with
  | Panics msg => Panics msg
  | Done _ =>
      Done (fold_left
              (λ acc containerToStop,
                 match ContainerStop (cID containerToStop) timeout acc.1 with
                 | (w', Some latestError) =>
                     (w', (Some latestError, acc.2.2 ++ [latestError]))
                 | (w', None) => (w', acc.2)
                 end)
              containerList (w, (None, [])))
  end.

Definition catalystConfig : Config :=
  mkConfig "root" true true true false false false [] catalystArguments CatalystImage
           [(LuksoContainerNameSelector, CatalystContainerName)].

Definition tekuConfig : Config :=
  mkConfig "root" true true true false false false [] tekuArguments CatalystImage [].

(** [createCatalystContainer]. *)
Definition createCatalystContainer (o : Orchestrator) (w : W)
    : run (W * (CreatedBody * option error)) :=
  match assureDockerClient o with
  | Panics msg => Panics msg
  | Done _ => Done (ContainerCreate catalystConfig w)
  end.

(** [createTekuContainer]. *)
Definition createTekuContainer (o : Orchestrator) (w : W)
    : run (W * (CreatedBody * option error)) :=
  match assureDockerClient o with
  | Panics msg => Panics msg
  | Done _ => Done (ContainerCreate tekuConfig w)
  end.

Definition notSupported (clientName valid : string) : error :=
  errors_New (String.append "client "
                (String.append clientName (String.append " not supported, valid " valid))).

(** The start of a created container, through [dockerCli] itself. *)
Definition startCreated (o : Orchestrator) (created : W * (CreatedBody * option error))
    : run (W * (CreatedBody * option error)) :=
  match created with
  | (w1, (containerBody, Some err)) => Done (w1, (containerBody, Some err))
  | (w1, (containerBody, None)) =>
      match dockerCli o with
      | None => Panics "invalid memory address or nil pointer dereference"
      | Some _ =>
          Done ((ContainerStart (bodyID containerBody) w1).1,
                (containerBody, (ContainerStart (bodyID containerBody) w1).2))
      end
  end.

(** [SpinEth1]. *)
Definition SpinEth1 (o : Orchestrator) (clientName : string) (w : W)
    : run (W * (CreatedBody * option error)) :=
  if negb (String.eqb CatalystClientName clientName)
  then Done (w, (noBody, Some (notSupported clientName CatalystClientName)))
  else
    match isContainerRunningWithImage o CatalystImage w with
    | Panics msg => Panics msg
    | Done (Some err) => Done (w, (noBody, Some err))
    | Done None =>
        match createCatalystContainer o w with
        | Panics msg => Panics msg
        | Done created => startCreated o created
        end
    end.

(** [SpinEth2]. *)
Definition SpinEth2 (o : Orchestrator) (clientName : string) (w : W)
    : run (W * (CreatedBody * option error)) :=
  match assureDockerClient o with
  | Panics msg => Panics msg
  | Done _ =>
      if negb (String.eqb TekuClientName clientName)
      then Done (w, (noBody, Some (notSupported clientName TekuClientName)))
      else
        match isContainerRunningWithImage o TekuImage w with
        | Panics msg => Panics msg
        | Done (Some err) => Done (w, (noBody, Some err))
        | Done None =>
            match createTekuContainer o w with
            | Panics msg => Panics msg
            | Done created => startCreated o created
            end
        end
  end.

(** [stopTekuCatalystImages]: both kinds are looked up, the catalyst
    ones are stopped. *)
Definition stopTekuCatalystImages (o : Orchestrator) (timeout : option N) (w : W)
    : run (W * (option error * list error)) :=
  match findRunningContainerByImage o CatalystImage w with
  | Panics msg => Panics msg
  | Done (_, Some err) => Done (w, (Some err, []))
  | Done (catalystContainerList, None) =>
      match findRunningContainerByImage o TekuClientName w with
      | Panics msg => Panics msg
      | Done (_, Some err) => Done (w, (Some err, []))
      | Done (tekuContainerList, None) =>
          stopContainers o catalystContainerList timeout w
      end
  end.

(** [Run]: what it returns is [(err, errList, runningContainers)]. *)
Definition Run (o : Orchestrator) (timeout : option N) (w : W)
    : run (W * (option error * list error * list CreatedBody)) :=
  match stopTekuCatalystImages o timeout w with
  | Panics msg => Panics msg
  | Done (w1, (Some err, errList)) => Done (w1, (Some err, errList, []))
  | Done (w1, (None, errList)) =>
      match SpinEth1 o CatalystClientName w1 with
      | Panics msg => Panics msg
      | Done (w2, (eth1Container, Some err)) => Done (w2, (Some err, errList, []))
      | Done (w2, (eth1Container, None)) =>
          match SpinEth2 o TekuClientName w2 with
          | Panics msg => Panics msg
          | Done (w3, (eth2Container, Some err)) =>
              Done (w3, (Some err, errList, [eth1Container]))
          | Done (w3, (eth2Container, None)) =>
              Done (w3, (None, errList, [eth1Container; eth2Container]))
          end
      end
  end.

(** The daemon after a stop of every container of a list, in turn. *)
Definition stopAll (containerList : list Container) (timeout : option N) (w : W) : W :=
  fold_left (λ w c, (ContainerStop (cID c) timeout w).1) containerList w.

(** The errors of those stops, in turn. *)
Fixpoint stopErrors (containerList : list Container) (timeout : option N) (w : W)
    : list error :=
  match containerList with
  | [] => []
  | c :: rest =>
      match (ContainerStop (cID c) timeout w).2 with
      | Some err => err :: stopErrors rest timeout (ContainerStop (cID c) timeout w).1
      | None => stopErrors rest timeout (ContainerStop (cID c) timeout w).1
      end
  end.

(** The error the package reports for a container that is running. *)
Definition shouldNotRun : error :=
  errors_New (String.append "container from image "
                (String.append CatalystImage " should not be running in docker")).

End Calls.

(** A daemon to run the package on: the running containers, the
    containers created so far, the ids that refuse to stop, and whether
    the daemon answers a listing. *)
Record World : Type := mkWorld {
  running : list Container;
  created : list (string * Config);
  stuck : list string;
  listing : bool
}.

Definition inList (x : string) (l : list string) : bool := existsb (String.eqb x) l.

Definition freshID (w : World) : string :=
  String.append "c" (String.concat "" (repeat "i"%string (length (created w)))).

#[export] Instance worldAPI : API World := {
  ContainerList := λ w,
    if listing w then Ok (running w) else Err (errors_New "cannot list containers");
  ContainerStop := λ id timeout w,
    if inList id (stuck w) then (w, Some (errors_New (String.append "cannot stop " id)))
    else (mkWorld (filter (λ c, negb (String.eqb id (cID c))) (running w))
                  (created w) (stuck w) (listing w), None);
  ContainerCreate := λ cfg w,
    (mkWorld (running w) (created w ++ [(freshID w, cfg)]) (stuck w) (listing w),
     (mkCreatedBody (freshID w), None));
  ContainerStart := λ id w,
    match find (λ p, String.eqb id p.1) (created w) with
    | Some (_, cfg) =>
        (mkWorld (running w ++ [mkContainer id (cfgImage cfg)])
                 (created w) (stuck w) (listing w), None)
    | None => (w, Some (errors_New (String.append "no such container " id)))
    end
}.

Definition withClient : Orchestrator := mkOrchestrator (Some theClient).
Definition withoutClient : Orchestrator := mkOrchestrator None.

(** Two catalyst containers, the second of which refuses to stop, and
    two others. *)
Definition crowded : World :=
  mkWorld [mkContainer "a" CatalystImage; mkContainer "b" TekuImage;
           mkContainer "c" CatalystImage; mkContainer "d" TekuClientName]
          [] ["c"%string] true.

(** A daemon with one teku container, and one with none at all. *)
Definition quiet : World :=
  mkWorld [mkContainer "b" TekuImage] [] [] true.

Definition idle : World := mkWorld [] [] [] true.

End Docker.

(** ** The mock backend of package [events] *)

Module Events.

(** [types.SlotInfo]; the mock's map holds pointers to it. *)
Record SlotInfo : Type := mkSlotInfo {
  siPandoraHeaderHash : Hash;
  siVanguardBlockHash : Hash
}.

Section Mock.
(** The epoch infos are pointers to a structure of another package. *)
Context {EpochInfo : Type}.

Record MockBackend : Type := mkMockBackend {
  ConsensusInfos : list (option EpochInfo);
  verifiedSlotInfos : gmap N (option SlotInfo);
  CurEpoch : N
}.

(** [ConsensusInfoByEpochRange]: the loop appends every stored info. *)
Definition ConsensusInfoByEpochRange (b : MockBackend) (fromEpoch : N)
    : list (option EpochInfo) * option error :=
  (fold_left (λ consensusInfos consensusInfo, consensusInfos ++ [consensusInfo])
             (ConsensusInfos b) [],
   None).

(** [VerifiedSlotInfos]: the loop ranges over the map in an order the
    runtime picks; [order] is that order. *)
Definition VerifiedSlotInfos (b : MockBackend) (fromSlot : N)
    (order : list (N * option SlotInfo)) : gmap N (option SlotInfo) :=
  fold_left (λ slotInfos kv, <[kv.1 := kv.2]> slotInfos) order ∅.

(** [GetSlotStatus], [LatestEpoch], [LatestVerifiedSlot] and
    [LatestFinalizedSlot]. *)
Definition GetSlotStatus (b : MockBackend) (slot : N) (hash : Hash) (requestType : bool)
    : Status := Pending.
Definition LatestEpoch (b : MockBackend) : N := 100.
Definition LatestVerifiedSlot (b : MockBackend) : N := 100.
Definition LatestFinalizedSlot (b : MockBackend) : N := 100.

End Mock.

(** A mock that holds two verified slots and no epoch info. *)
Definition twoSlots : MockBackend (EpochInfo := unit) :=
  mkMockBackend []
    (<[2 := Some (mkSlotInfo 0x22 0xBB)]> (<[1 := Some (mkSlotInfo 0x11 0xAA)]> ∅)) 0.

End Events.

(** ** Facts about the handler, for any store, caches and helpers *)

Section HandlerFacts.
Context {D PC VC : Type}.
Context `{!Database D, !PandoraCache PC, !VanguardCache VC, !Verification D}.

Abbreviation Svc := (Service D PC VC).

Implicit Types (s : Svc) (v : VanguardShardInfo) (h : Header).

Lemma feed_publish s a b st :
  verifiedSlotInfoFeed (publishBlockConfirmation a b st s)
  = verifiedSlotInfoFeed s ++ [mkSlotInfoWithStatus a b st].
Proof. reflexivity. Qed.

Lemma published_app s s' l :
  verifiedSlotInfoFeed s' = verifiedSlotInfoFeed s ++ l → published s s' = l.
Proof.
  intros E. unfold published. rewrite E. apply drop_app_length.
Qed.

Lemma published_same s s' :
  verifiedSlotInfoFeed s' = verifiedSlotInfoFeed s → published s s' = [].
Proof.
  intros E. apply published_app. rewrite E. symmetry. apply app_nil_r.
Qed.

(** [verifyShardInfo] in words. *)
Lemma verifyShardInfo_spec latest h v stepId :
  verifyShardInfo latest h v stepId = true ↔
  stepId = 0 ∨
  ∃ rec sh rest, latest = Some rec ∧ msShards rec = sh :: rest ∧
                 esHash sh = hParentHash h ∧ msSlotBlockRoot rec = vParentRoot v.
Proof.
  unfold verifyShardInfo. rewrite orb_true_iff, N.eqb_eq. split.
  - intros [E | E]; [by left | right].
    destruct latest as [rec|]; [|done].
    destruct (msShards rec) as [|sh rest] eqn:Esh; [done|].
    apply andb_true_iff in E as [E1 E2].
    apply N.eqb_eq in E1. apply N.eqb_eq in E2.
    by exists rec, sh, rest.
  - intros [E | (rec & sh & rest & -> & Esh & E1 & E2)]; [by left | right].
    rewrite Esh. apply andb_true_iff. by rewrite !N.eqb_eq.
Qed.

(** The reorg step touches the store and the reorg status only. *)
Lemma reorgStep_frame v s :
  ∀ s1, (reorgStep v s = inl s1 ∨ reorgStep v s = inr s1) →
  verifiedSlotInfoFeed s1 = verifiedSlotInfoFeed s ∧
  panHeaderCache s1 = panHeaderCache s ∧
  vanShardCache s1 = vanShardCache s.
Proof.
  intros s1. unfold reorgStep.
  destruct (curReorgStatus s) as [r|]; [destruct (reorgPending v r)|].
  - destruct (processReorg _ _ _) as [d1 [err|]]; intros [E|E]; by simplify_eq.
  - intros [E|E]; by simplify_eq.
  - intros [E|E]; by simplify_eq.
Qed.

Lemma insertIntoChain_cases v h latest stepId s :
  chainResult v h latest stepId s (insertIntoChain v h latest stepId s).
Proof.
  unfold insertIntoChain.
  destruct (compareShardingInfo h (vShardInfo v) && verifyShardInfo latest h v stepId) eqn:Eok.
  - destruct (reorgStep v s) as [s1|s1] eqn:Er.
    + by eapply chain_reorg_failed.
    + destruct (writeShardInfoInDB _ (db s1)) as [d2 [err|]] eqn:Ew.
      * by eapply chain_write_failed.
      * exact (chain_verified v h latest stepId s s1 d2 Eok Er Ew).
  - by apply chain_invalid.
Qed.

(** What [insertIntoChain] publishes: nothing, or one confirmation for
    the pair it was given. *)
Lemma insertIntoChain_published v h latest stepId s :
  let r := insertIntoChain v h latest stepId s in
  verifiedSlotInfoFeed (fst r) = verifiedSlotInfoFeed s ++ published s (fst r) ∧
  (published s (fst r) = [] ∨
   published s (fst r) =
     [mkSlotInfoWithStatus (hHash h) (vBlockRoot v)
        (if compareShardingInfo h (vShardInfo v) && verifyShardInfo latest h v stepId
         then Verified else Invalid)]).
Proof.
  intros r. subst r.
  destruct (insertIntoChain_cases v h latest stepId s) as [Eok|s1 Eok Er|s1 d2 err Eok Er Ew|s1 d2 Eok Er Ew];
    rewrite Eok; simpl fst.
  - rewrite (published_app s _ [mkSlotInfoWithStatus (hHash h) (vBlockRoot v) Invalid]) by done.
    split; [done | by right].
  - destruct (reorgStep_frame v s s1 (or_introl Er)) as (Ef & _ & _).
    rewrite (published_same s s1 Ef), app_nil_r. split; [done | by left].
  - destruct (reorgStep_frame v s s1 (or_intror Er)) as (Ef & _ & _).
    rewrite (published_same s (withDB s1 d2) Ef), app_nil_r. split; [done | by left].
  - destruct (reorgStep_frame v s s1 (or_intror Er)) as (Ef & _ & _).
    rewrite (published_app s _ [mkSlotInfoWithStatus (hHash h) (vBlockRoot v) Verified]).
    + split; [by simpl; rewrite Ef | by right].
    + simpl. by rewrite Ef.
Qed.

(** [writeShardInfoInDB] succeeds exactly when its three writes do. *)
Lemma writeShardInfoInDB_ok record (d d' : D) :
  writeShardInfoInDB record d = (d', None) ↔ appended record d d'.
Proof.
  unfold writeShardInfoInDB, appended. cbv zeta.
  destruct (SaveVerifiedShardInfo _ record d) as [d1 [e1|]] eqn:E1.
  { split; [done | intros (x1 & x2 & Hx & _); congruence]. }
  destruct (SaveLatestStepID _ d1) as [d2 [e2|]] eqn:E2.
  { split; [done | intros (x1 & x2 & Hx & Hy & _); congruence]. }
  destruct (SaveSlotStepIndex _ _ d2) as [d3 [e3|]] eqn:E3.
  { split; [done | intros (x1 & x2 & Hx & Hy & Hz); congruence]. }
  split.
  - intros ?; simplify_eq. by exists d1, d2.
  - intros (x1 & x2 & Hx & Hy & Hz). congruence.
Qed.

(** ... and fails exactly when one of them does, with that error. *)
Lemma writeShardInfoInDB_failed record (d d' : D) err :
  writeShardInfoInDB record d = (d', Some err) ↔ appendFailed record d d' err.
Proof.
  unfold writeShardInfoInDB, appendFailed. cbv zeta.
  destruct (SaveVerifiedShardInfo _ record d) as [d1 [e1|]] eqn:E1.
  { split; [intros ?; simplify_eq; by left|].
    intros [?|[(? & ? & _)|(? & ? & ? & _)]]; congruence. }
  destruct (SaveLatestStepID _ d1) as [d2 [e2|]] eqn:E2.
  { split; [intros ?; simplify_eq; right; left; by exists d1|].
    intros [?|[(? & Hx & Hy)|(? & ? & Hx & Hy & _)]]; congruence. }
  destruct (SaveSlotStepIndex _ _ d2) as [d3 [e3|]] eqn:E3.
  { split; [intros ?; simplify_eq; right; right; by exists d1, d2|].
    intros [?|[(? & Hx & Hy)|(? & ? & Hx & Hy & Hz)]]; congruence. }
  split; [done|].
  intros [?|[(? & Hx & Hy)|(? & ? & Hx & Hy & Hz)]]; congruence.
Qed.

(** *** The claims about [insertIntoChain] *)

(** C1. Whatever [insertIntoChain] publishes is
    the pair [(h.hash, v.block_root)], and its status is [Verified]
    exactly when the structural compare and the parent-link check
    (genesis, or the tip's top shard hash is the header's parent hash
    and the tip's block root is the shard's parent root) both succeed.
    When a check fails the call publishes that pair as [Invalid], once,
    and leaves the store, the caches and the reorg status as they were.
    When both checks pass and the reorg step and the append succeed, the
    call publishes that pair as [Verified], once, on the appended store;
    when [processReorg] or the append fails it publishes nothing. *)
Theorem insertIntoChain_verified_iff_checks v h latest stepId s :
  let checks :=
    compareShardingInfo h (vShardInfo v) = true ∧
    (stepId = 0 ∨
     ∃ rec sh rest, latest = Some rec ∧ msShards rec = sh :: rest ∧
                    esHash sh = hParentHash h ∧ msSlotBlockRoot rec = vParentRoot v) in
  let record := PrepareMultiShardData v h TotalExecutionShardCount ShardsPerVanBlock in
  let r := insertIntoChain v h latest stepId s in
  (∀ ev, ev ∈ published s r.1 →
         PandoraHeaderHash ev = hHash h ∧ VanguardBlockHash ev = vBlockRoot v ∧
         (SlotStatus ev = Verified ↔ checks) ∧ (SlotStatus ev = Invalid ↔ ¬ checks)) ∧
  (¬ checks →
     r = (publishBlockConfirmation (hHash h) (vBlockRoot v) Invalid s, Return None) ∧
     published s r.1 = [mkSlotInfoWithStatus (hHash h) (vBlockRoot v) Invalid] ∧
     db r.1 = db s ∧ panHeaderCache r.1 = panHeaderCache s ∧
     vanShardCache r.1 = vanShardCache s ∧ curReorgStatus r.1 = curReorgStatus s) ∧
  (checks → ∀ s1 d2,
     reorgStep v s = inr s1 → appended record (db s1) d2 →
     published s r.1 = [mkSlotInfoWithStatus (hHash h) (vBlockRoot v) Verified] ∧
     r.2 = Return None ∧
     db r.1 = writeFinalizeInfo (vFinalizedSlot v) (vFinalizedEpoch v) d2) ∧
  (checks → ∀ s1,
     reorgStep v s = inl s1 →
     r = (s1, Return None) ∧ published s r.1 = []) ∧
  (checks → ∀ s1 d2 err,
     reorgStep v s = inr s1 → appendFailed record (db s1) d2 err →
     r = (withDB s1 d2, Return (Some (errors_Wrap err "failed to write shard info in db"))) ∧
     published s r.1 = []).
Proof.
  intros checks record r.
  assert (Hchecks : compareShardingInfo h (vShardInfo v) &&
                    verifyShardInfo latest h v stepId = true ↔ checks).
  { unfold checks. by rewrite andb_true_iff, verifyShardInfo_spec. }
  split; [|split; [|split; [|split]]].
  - intros ev Hev.
    destruct (insertIntoChain_published v h latest stepId s) as [_ [E|E]];
      fold r in E; rewrite E in Hev.
    + by apply elem_of_nil in Hev.
    + apply list_elem_of_singleton in Hev as ->. simpl.
      destruct (compareShardingInfo h (vShardInfo v) && verifyShardInfo latest h v stepId).
      * split; [done|]. split; [done|]. split.
        -- split; [intros _; by apply Hchecks | done].
        -- split; [done | intros Hn; destruct Hn; by apply Hchecks].
      * split; [done|]. split; [done|]. split.
        -- split; [done | by intros ?%Hchecks].
        -- split; [by intros _ ?%Hchecks | done].
  - intros Hn.
    assert (Eok : compareShardingInfo h (vShardInfo v) &&
                  verifyShardInfo latest h v stepId = false).
    { apply not_true_is_false. by rewrite Hchecks. }
    subst r. unfold insertIntoChain. rewrite Eok. simpl.
    repeat split. by apply published_app.
  - intros Eok%Hchecks s1 d2 Er Ew%writeShardInfoInDB_ok.
    destruct (reorgStep_frame v s s1 (or_intror Er)) as (Ef & _ & _).
    subst r. unfold insertIntoChain. rewrite Eok, Er. fold record. rewrite Ew.
    simpl. split; [|done]. apply published_app. simpl. by rewrite Ef.
  - intros Eok%Hchecks s1 Er.
    destruct (reorgStep_frame v s s1 (or_introl Er)) as (Ef & _ & _).
    subst r. unfold insertIntoChain. rewrite Eok, Er.
    split; [done|]. by apply published_same.
  - intros Eok%Hchecks s1 d2 err Er Ew%writeShardInfoInDB_failed.
    destruct (reorgStep_frame v s s1 (or_intror Er)) as (Ef & _ & _).
    subst r. unfold insertIntoChain. rewrite Eok, Er. fold record. rewrite Ew.
    split; [done|]. by apply published_same.
Qed.

(** C2. When the store write of [insertIntoChain] fails (the save of
    the record, of the head pointer or of the slot index returns an
    error) the call returns that error, publishes nothing and evicts
    nothing from the caches.  Hence every [Verified] confirmation the
    call emits is for the pair it was given and follows a successful
    append of the record built from that pair. *)
Theorem insertIntoChain_write_failure_is_silent v h latest stepId s :
  let record := PrepareMultiShardData v h TotalExecutionShardCount ShardsPerVanBlock in
  let r := insertIntoChain v h latest stepId s in
  (∀ s1 d2 err,
     compareShardingInfo h (vShardInfo v) && verifyShardInfo latest h v stepId = true →
     reorgStep v s = inr s1 →
     appendFailed record (db s1) d2 err →
     r.2 = Return (Some (errors_Wrap err "failed to write shard info in db")) ∧
     published s r.1 = [] ∧
     verifiedSlotInfoFeed r.1 = verifiedSlotInfoFeed s ∧
     panHeaderCache r.1 = panHeaderCache s ∧
     vanShardCache r.1 = vanShardCache s) ∧
  (∀ ev, ev ∈ published s r.1 → SlotStatus ev = Verified →
     ev = mkSlotInfoWithStatus (hHash h) (vBlockRoot v) Verified ∧
     ∃ s1 d2, reorgStep v s = inr s1 ∧ appended record (db s1) d2 ∧
              db r.1 = writeFinalizeInfo (vFinalizedSlot v) (vFinalizedEpoch v) d2).
Proof.
  intros record r. split.
  - intros s1 d2 err Eok Er Hfail%writeShardInfoInDB_failed.
    destruct (reorgStep_frame v s s1 (or_intror Er)) as (Ef & Ep & Ev).
    subst r. unfold insertIntoChain. rewrite Eok, Er. fold record. rewrite Hfail.
    simpl. repeat split; try done. by apply published_same.
  - intros ev Hev Hst. subst r.
    destruct (insertIntoChain_cases v h latest stepId s)
      as [Eok|s1 Eok Er|s1 d2 err Eok Er Ew|s1 d2 Eok Er Ew]; simpl fst in *.
    + rewrite (published_app s _ [mkSlotInfoWithStatus (hHash h) (vBlockRoot v) Invalid])
        in Hev by done.
      apply list_elem_of_singleton in Hev as ->. done.
    + destruct (reorgStep_frame v s s1 (or_introl Er)) as (Ef & _ & _).
      rewrite (published_same s s1 Ef) in Hev. by apply elem_of_nil in Hev.
    + destruct (reorgStep_frame v s s1 (or_intror Er)) as (Ef & _ & _).
      rewrite (published_same s (withDB s1 d2) Ef) in Hev. by apply elem_of_nil in Hev.
    + destruct (reorgStep_frame v s s1 (or_intror Er)) as (Ef & _ & _).
      rewrite (published_app s _ [mkSlotInfoWithStatus (hHash h) (vBlockRoot v) Verified])
        in Hev by (simpl; by rewrite Ef).
      apply list_elem_of_singleton in Hev as ->. split; [done|].
      exists s1, d2. split; [done|]. split; [|done].
      by apply writeShardInfoInDB_ok.
Qed.

(** C7. With both checks passed and a reorg status that names the
    shard's slot and block root and is not yet resolved,
    [processReorg] runs first.  If it fails the call returns nil with
    the store as [processReorg] left it (no append), nothing published
    and the status still unresolved; if it succeeds the status is marked
    resolved and the append starts from the rewound store. *)
Theorem insertIntoChain_reorg_resolution v h latest stepId s r :
  compareShardingInfo h (vShardInfo v) && verifyShardInfo latest h v stepId = true →
  curReorgStatus s = Some r →
  rSlot r = vSlot v → rBlockRoot r = vBlockRoot v → rHasResolved r = false →
  let record := PrepareMultiShardData v h TotalExecutionShardCount ShardsPerVanBlock in
  let res := insertIntoChain v h latest stepId s in
  match processReorg (rParentStepId r) (rParentShardInfo r) (db s) with
  | (d1, Some err) =>
      res = (withDB s d1, Return None) ∧
      published s res.1 = [] ∧
      curReorgStatus res.1 = Some r ∧
      panHeaderCache res.1 = panHeaderCache s ∧ vanShardCache res.1 = vanShardCache s
  | (d1, None) =>
      curReorgStatus res.1 = Some (markResolved r) ∧
      rHasResolved (markResolved r) = true ∧
      match writeShardInfoInDB record d1 with
      | (d2, Some err) =>
          db res.1 = d2 ∧ published s res.1 = [] ∧
          res.2 = Return (Some (errors_Wrap err "failed to write shard info in db"))
      | (d2, None) =>
          db res.1 = writeFinalizeInfo (vFinalizedSlot v) (vFinalizedEpoch v) d2 ∧
          published s res.1 = [mkSlotInfoWithStatus (hHash h) (vBlockRoot v) Verified] ∧
          res.2 = Return None
      end
  end.
Proof.
  intros Eok Er Eslot Eroot Eres record res.
  assert (Ep : reorgPending v r = true).
  { unfold reorgPending. rewrite Eslot, Eroot, Eres, !N.eqb_refl. done. }
  subst res. unfold insertIntoChain, reorgStep. rewrite Eok, Er, Ep.
  destruct (processReorg _ _ (db s)) as [d1 [err|]].
  - simpl. repeat split; try done. by apply published_same.
  - fold record. simpl db.
    destruct (writeShardInfoInDB record d1) as [d2 [err|]]; simpl.
    + repeat split; try done. by apply published_same.
    + repeat split; try done. by apply published_app.
Qed.

(** The reorg step of the vanguard entry point changes the reorg status
    only. *)
Lemma installReorg_frame v found head s :
  let s1 := (installReorg v found head s).1 in
  db s1 = db s ∧ panHeaderCache s1 = panHeaderCache s ∧
  vanShardCache s1 = vanShardCache s ∧
  verifiedSlotInfoFeed s1 = verifiedSlotInfoFeed s ∧
  genesisTime s1 = genesisTime s ∧ secondsPerSlot s1 = secondsPerSlot s.
Proof.
  unfold installReorg.
  destruct (ptrNotNil found.1); [destruct (reorgSlotFree v s)|]; done.
Qed.

(** C5 (as the code has it).  When [checkReorg] returns a non-nil
    ancestor, the rest of the call works with
    [(parent_step_id, parent_shard_info)] as the tip.  The reorg status
    is replaced by one built from the shard (slot, block root, the
    ancestor's step id and record, the execution hash of the embedded
    shard info, unresolved) when no status is held or the held one has
    the shard's block root; a status held for another block root is
    kept as it is. *)
Theorem vanguard_reorg_installs_when_free now v s headShardInfo parent parentStepId :
  vanguardShortCircuit v s = false →
  VerifiedShardInfo (LatestStepID (db s)) (db s) = Ok headShardInfo →
  (0 <? LatestStepID (db s)) && ptrIsNil headShardInfo = false →
  checkReorg v headShardInfo (LatestStepID (db s)) (db s) = Ok (Some parent, parentStepId) →
  NotNil parent = true →
  let status :=
    mkReorgStatus (vSlot v) (vBlockRoot v) parentStepId (Some parent)
                  (BytesToHash (siHash (vShardInfo v))) false in
  let s1 := if reorgSlotFree v s then withReorgStatus s (Some status) else s in
  processVanguardShardInfo now (Some v) s
  = vanguardPair now v (Some parent, parentStepId) s1 ∧
  (curReorgStatus s = None → curReorgStatus s1 = Some status) ∧
  (∀ r, curReorgStatus s = Some r → rBlockRoot r = vBlockRoot v →
        curReorgStatus s1 = Some status) ∧
  (∀ r, curReorgStatus s = Some r → rBlockRoot r ≠ vBlockRoot v → s1 = s).
Proof.
  intros Esc Eread Enil Echeck Hnn status s1.
  split; [|split; [|split]].
  - unfold processVanguardShardInfo, vanguardNormalPath.
    rewrite Esc, Eread, Enil, Echeck. unfold installReorg. simpl. by rewrite Hnn.
  - intros E. subst s1. unfold reorgSlotFree. by rewrite E.
  - intros r E Hr. subst s1. unfold reorgSlotFree. rewrite E.
    apply N.eqb_eq in Hr. by rewrite Hr.
  - intros r E Hr. subst s1. unfold reorgSlotFree. rewrite E.
    apply N.eqb_neq in Hr. by rewrite Hr.
Qed.

(** C6. A failing cache put is never handed to the producer.  On the
    pandora path the call publishes [Invalid] for [(h.hash, zero)] and
    returns nil; on the vanguard path it returns nil and publishes
    nothing. *)
Theorem unknown_parent_is_not_propagated :
  (∀ (hi : PandoraHeaderInfo) s latestShardInfo c1 err,
     pandoraShortCircuit hi s = None →
     VerifiedShardInfo (LatestStepID (db s)) (db s) = Ok latestShardInfo →
     (0 <? LatestStepID (db s)) && ptrIsNil latestShardInfo = false →
     panPut (pSlot hi)
            (mkPanCacheInsertParams (pHeader hi)
               (pandoraTip (pHeader hi) (latestShardInfo, LatestStepID (db s)) s).1)
            (panHeaderCache s) = (c1, Some err) →
     let r := processPandoraHeader (Some hi) s in
     r.2 = Return None ∧
     published s r.1 = [mkSlotInfoWithStatus (hHash (pHeader hi)) zeroHash Invalid] ∧
     db r.1 = db s ∧ vanShardCache r.1 = vanShardCache s) ∧
  (∀ now v s headShardInfo found c1 err,
     vanguardShortCircuit v s = false →
     VerifiedShardInfo (LatestStepID (db s)) (db s) = Ok headShardInfo →
     (0 <? LatestStepID (db s)) && ptrIsNil headShardInfo = false →
     checkReorg v headShardInfo (LatestStepID (db s)) (db s) = Ok found →
     secondsPerSlot s ≠ 0 →
     let i := installReorg v found (headShardInfo, LatestStepID (db s)) s in
     vanPut (vSlot v)
            (mkVanCacheInsertParams (vSlot v <? sub64 now (genesisTime s) / secondsPerSlot s)
                                    v i.2.1)
            (vanShardCache s) = (c1, Some err) →
     let r := processVanguardShardInfo now (Some v) s in
     r.2 = Return None ∧
     published s r.1 = [] ∧
     db r.1 = db s ∧ panHeaderCache r.1 = panHeaderCache s).
Proof.
  split.
  - intros hi s latestShardInfo c1 err Esc Eread Enil Eput r. subst r.
    unfold processPandoraHeader, pandoraNormalPath, pandoraPair.
    rewrite Esc, Eread, Enil, Eput. simpl.
    repeat split. by apply published_app.
  - intros now v s headShardInfo found c1 err Esc Eread Enil Echeck Hsec i Eput r. subst r.
    destruct (installReorg_frame v found (headShardInfo, LatestStepID (db s)) s)
      as (Ed & Ep & Ev & Ef & Eg & Es).
    fold i in Ed, Ep, Ev, Ef, Eg, Es.
    unfold processVanguardShardInfo, vanguardNormalPath, vanguardPair.
    rewrite Esc, Eread, Enil, Echeck. fold i.
    apply N.eqb_neq in Hsec. rewrite Es, Hsec, Eg, Ev, Eput. simpl.
    repeat split; try done. by apply published_same.
Qed.

(** *** Finality *)

Lemma writeFinalizeInfo_monotone (d : D) fs fe :
  finalityRegisters →
  FinalizedSlot d ≤ FinalizedSlot (writeFinalizeInfo fs fe d) ∧
  FinalizedEpoch d ≤ FinalizedEpoch (writeFinalizeInfo fs fe d).
Proof.
  intros Hreg. unfold writeFinalizeInfo.
  set (d1 := if FinalizedSlot d <? fs then (SaveFinalizedSlot fs d).1 else d).
  assert (H1 : FinalizedSlot d ≤ FinalizedSlot d1 ∧ FinalizedEpoch d1 = FinalizedEpoch d).
  { subst d1. destruct (FinalizedSlot d <? fs) eqn:E; [|split; [lia | done]].
    apply N.ltb_lt in E. destruct (Hreg fs d) as ([->| ->] & -> & _); split; lia || done. }
  destruct H1 as [H1 H2].
  destruct (FinalizedEpoch d1 <? fe) eqn:E; [|split; lia].
  apply N.ltb_lt in E.
  destruct (Hreg fe d1) as (_ & _ & [Hx|Hx] & Hy); rewrite Hx, Hy; split; lia.
Qed.

Lemma runFinalize_monotone (calls : list (N * N)) (d : D) :
  finalityRegisters →
  FinalizedSlot d ≤ FinalizedSlot (runFinalize calls d) ∧
  FinalizedEpoch d ≤ FinalizedEpoch (runFinalize calls d).
Proof.
  intros Hreg. revert d.
  induction calls as [|[fs fe] calls IH]; intros d; [split; simpl; lia|].
  change (runFinalize ((fs, fe) :: calls) d)
    with (runFinalize calls (writeFinalizeInfo fs fe d)).
  destruct (writeFinalizeInfo_monotone d fs fe Hreg) as [H1 H2].
  destruct (IH (writeFinalizeInfo fs fe d)) as [H3 H4].
  split; lia.
Qed.

(** C8. Along any run of [writeFinalizeInfo] calls the stored finalized
    slot and epoch never decrease, and a value that is not strictly
    greater than the stored one leaves the stored one unchanged (the
    save is not even attempted). *)
Theorem finality_is_monotone (d : D) :
  finalityRegisters →
  (∀ calls more,
     FinalizedSlot (runFinalize calls d) ≤ FinalizedSlot (runFinalize (calls ++ more) d) ∧
     FinalizedEpoch (runFinalize calls d) ≤ FinalizedEpoch (runFinalize (calls ++ more) d)) ∧
  (∀ fs fe, fs ≤ FinalizedSlot d →
            FinalizedSlot (writeFinalizeInfo fs fe d) = FinalizedSlot d) ∧
  (∀ fs fe, fe ≤ FinalizedEpoch d →
            FinalizedEpoch (writeFinalizeInfo fs fe d) = FinalizedEpoch d) ∧
  (∀ fs fe, fs ≤ FinalizedSlot d → fe ≤ FinalizedEpoch d →
            writeFinalizeInfo fs fe d = d).
Proof.
  intros Hreg. split; [|split; [|split]].
  - intros calls more. unfold runFinalize at 2 4. rewrite fold_left_app.
    apply (runFinalize_monotone more (runFinalize calls d) Hreg).
  - intros fs fe Hle. unfold writeFinalizeInfo.
    apply N.ltb_ge in Hle. rewrite Hle.
    destruct (FinalizedEpoch d <? fe); [|done].
    by destruct (Hreg fe d) as (_ & _ & _ & ->).
  - intros fs fe Hle. unfold writeFinalizeInfo.
    destruct (FinalizedSlot d <? fs).
    + destruct (Hreg fs d) as (_ & E & _). rewrite E.
      apply N.ltb_ge in Hle. by rewrite Hle.
    + apply N.ltb_ge in Hle. by rewrite Hle.
  - intros fs fe H1 H2. unfold writeFinalizeInfo.
    apply N.ltb_ge in H1. rewrite H1. apply N.ltb_ge in H2. by rewrite H2.
Qed.

(** *** The entry points *)

(** C9. A read error in the short-circuit lookup (slot index or
    record) makes [getShardingInfo] return nil; both entry points then
    go on along their normal path. *)
Theorem getShardingInfo_swallows_read_errors slot s :
  ((∃ err, GetStepIdBySlot slot (db s) = Err err) ∨
   (∃ stepId err, GetStepIdBySlot slot (db s) = Ok stepId ∧
                  VerifiedShardInfo stepId (db s) = Err err)) →
  getShardingInfo slot s = None ∧
  (∀ hi, pSlot hi = slot →
         processPandoraHeader (Some hi) s = pandoraNormalPath hi s) ∧
  (∀ now v, vSlot v = slot →
            processVanguardShardInfo now (Some v) s = vanguardNormalPath now v s).
Proof.
  intros Herr.
  assert (E : getShardingInfo slot s = None).
  { unfold getShardingInfo.
    destruct Herr as [[err ->]|(stepId & err & -> & ->)]; done. }
  split; [done|]. split.
  - intros hi <-. unfold processPandoraHeader, pandoraShortCircuit. by rewrite E.
  - intros now v <-. unfold processVanguardShardInfo, vanguardShortCircuit. by rewrite E.
Qed.

(** C10. A nil input is a no-op at both entry points: the call returns
    nil and the service (store, caches, reorg status, feed) is the one
    it started with. *)
Theorem nil_input_is_noop now s :
  processPandoraHeader None s = (s, Return None) ∧
  processVanguardShardInfo now None s = (s, Return None).
Proof. split; reflexivity. Qed.

(** *** The vanguard short-circuit, as the code has it *)

(** A verified record with the shard's own block root does not stop the
    call: it goes on along the normal path. *)
Lemma vanguard_same_root_continues now v s shardInfo :
  getShardingInfo (vSlot v) s = Some shardInfo →
  GetVanSlotRoot shardInfo = vBlockRoot v →
  processVanguardShardInfo now (Some v) s = vanguardNormalPath now v s.
Proof.
  intros E Hroot. unfold processVanguardShardInfo, vanguardShortCircuit.
  rewrite E, Hroot, N.eqb_refl, andb_false_r. done.
Qed.

(** A verified record with another block root ends the call at once,
    and nothing is published. *)
Lemma vanguard_other_root_returns now v s shardInfo :
  getShardingInfo (vSlot v) s = Some shardInfo →
  NotNil shardInfo = true →
  GetVanSlotRoot shardInfo ≠ vBlockRoot v →
  processVanguardShardInfo now (Some v) s = (s, Return None).
Proof.
  intros E Hnn Hroot. unfold processVanguardShardInfo, vanguardShortCircuit.
  apply N.eqb_neq in Hroot. by rewrite E, Hnn, Hroot.
Qed.

(** Without a cached header for its slot, the vanguard entry point
    publishes nothing, whatever the store holds. *)
Lemma vanguard_without_header_is_silent now v s :
  panGet (vSlot v) (panHeaderCache s) = None →
  verifiedSlotInfoFeed (processVanguardShardInfo now (Some v) s).1 = verifiedSlotInfoFeed s.
Proof.
  intros Eget. unfold processVanguardShardInfo.
  destruct (vanguardShortCircuit v s); [done|].
  unfold vanguardNormalPath.
  destruct (VerifiedShardInfo _ (db s)) as [headShardInfo|err]; [|done].
  destruct ((0 <? LatestStepID (db s)) && ptrIsNil headShardInfo); [done|].
  destruct (checkReorg _ _ _ _) as [found|err]; [|done].
  destruct (installReorg_frame v found (headShardInfo, LatestStepID (db s)) s)
    as (Ed & Ep & Ev & Ef & Eg & Es).
  set (i := installReorg v found (headShardInfo, LatestStepID (db s)) s) in *.
  unfold vanguardPair.
  destruct (secondsPerSlot i.1 =? 0); [done|].
  destruct (vanPut _ _ _) as [c1 [err|]]; [done|].
  destruct (vanMarkInProgress _ c1) as [c2 [err|]]; [done|].
  simpl. rewrite Ep, Eget. done.
Qed.

End HandlerFacts.

(** ** The in-memory instance: laws and runs *)

Section MemFacts.
Import Mem Scenario.

(** The in-memory store keeps its finalized scalars as the handler
    expects. *)
Lemma mem_finalityRegisters : finalityRegisters (D := DB).
Proof.
  intros x d. simpl.
  unfold save_finalized_slot, save_finalized_epoch.
  destruct (writeFault d); simpl; [by repeat split; try right|].
  destruct (finalizedSlot d <? x), (finalizedEpoch d <? x); simpl;
    repeat split; (by left) || (by right) || done.
Qed.

(** Scenario 1 and 2: two slots commit, whatever the arrival order. *)
Example happy_path :
  published genesis chain2
  = [mkSlotInfoWithStatus 0x11 0xAA Verified; mkSlotInfoWithStatus 0x22 0xBB Verified] ∧
  shards (db chain2) = <[2 := rec2]> (<[1 := rec1]> ∅) ∧
  LatestStepID (db chain2) = 2 ∧
  panHeaderCache chain2 = ∅ ∧ vanShardCache chain2 = ∅.
Proof. vm_compute. repeat split. Qed.

(** Scenario 3: a header whose gas differs is answered with [Invalid]. *)
Example mismatch_is_invalid :
  published chain2 (onPan 3 h3bad (onVan v3 chain2))
  = [mkSlotInfoWithStatus 0x33 0xCC Invalid] ∧
  db (onPan 3 h3bad (onVan v3 chain2)) = db chain2.
Proof. vm_compute. repeat split. Qed.

(** A fork at a fresh slot rewinds the store to the common ancestor. *)
Example fork_rewinds :
  curReorgStatus forked = Some forkStatus ∧
  published forked (onPan 4 h4f forked) = [mkSlotInfoWithStatus 0x4F 0xF4 Verified] ∧
  LatestStepID (db (onPan 4 h4f forked)) = 2 ∧
  shards (db (onPan 4 h4f forked))
  = <[2 := mkMultiShardInfo 4 0xF4 0xAA [mkExecutionShard 0x4F 0x11]]> (<[1 := rec1]> ∅) ∧
  curReorgStatus (onPan 4 h4f forked) = Some (markResolved forkStatus).
Proof. vm_compute. repeat split. Qed.

(** The mismatching header of slot 3 against the cached shard: one
    [Invalid] for the pair, the store untouched.  The matching header:
    one [Verified] for the pair, on the appended store. *)
Lemma mismatch_witness :
  (insertIntoChain v3 h3bad (Some rec2) 2 (onVan v3 chain2)
   = (publishBlockConfirmation 0x33 0xCC Invalid (onVan v3 chain2), Return None) ∧
   db (insertIntoChain v3 h3bad (Some rec2) 2 (onVan v3 chain2)).1 = db (onVan v3 chain2)) ∧
  (published (onVan v3 chain2) (insertIntoChain v3 h3 (Some rec2) 2 (onVan v3 chain2)).1
   = [mkSlotInfoWithStatus 0x33 0xCC Verified] ∧
   (insertIntoChain v3 h3 (Some rec2) 2 (onVan v3 chain2)).2 = Return None ∧
   db (insertIntoChain v3 h3 (Some rec2) 2 (onVan v3 chain2)).1
   = writeFinalizeInfo 2 0 (writeShardInfoInDB rec3 (db (onVan v3 chain2))).1).
Proof.
  split.
  - destruct (proj1 (proj2 (insertIntoChain_verified_iff_checks
                              v3 h3bad (Some rec2) 2 (onVan v3 chain2))))
      as (H1 & _ & H3 & _).
    + intros [Hc _]. vm_compute in Hc. discriminate.
    + split; [exact H1 | exact H3].
  - assert (Hc : compareShardingInfo (D := DB) h3 (vShardInfo v3) = true ∧
                 (2 = 0 ∨
                  ∃ rec sh rest, Some rec2 = Some rec ∧ msShards rec = sh :: rest ∧
                                 esHash sh = hParentHash h3 ∧
                                 msSlotBlockRoot rec = vParentRoot v3)).
    { split; [vm_compute; reflexivity|]. right.
      exists rec2, (mkExecutionShard 0x22 0x11), []. repeat split. }
    apply (proj1 (proj2 (proj2 (insertIntoChain_verified_iff_checks
                                  v3 h3 (Some rec2) 2 (onVan v3 chain2))))
                 Hc (onVan v3 chain2)
                 (writeShardInfoInDB rec3 (db (onVan v3 chain2))).1).
    + vm_compute. reflexivity.
    + apply writeShardInfoInDB_ok. vm_compute. reflexivity.
Defined.

(** Slot 1 on a disk that refuses writes: both checks pass, the append
    fails, and the call returns the error of the write without
    publishing a status. *)
Example failed_append_publishes_nothing :
  compare_sharding_info h1 (vShardInfo v1) = true ∧
  verifyShardInfo None h1 v1 0 = true ∧
  published (breakDisk (onVan v1 genesis))
            (insertIntoChain v1 h1 None 0 (breakDisk (onVan v1 genesis))).1 = [] ∧
  (insertIntoChain v1 h1 None 0 (breakDisk (onVan v1 genesis))).2
  = Return (Some (errors_Wrap ioError "failed to write shard info in db")).
Proof. vm_compute. repeat split. Qed.

(** A header whose extra data carries another slot, or another blob id,
    is answered with [Invalid]. *)
Example foreign_slot_is_invalid :
  published (onVan v3 chain2) (onPan 3 h3slot (onVan v3 chain2))
  = [mkSlotInfoWithStatus 0x33 0xCC Invalid] ∧
  published (onVan v3 chain2) (onPan 3 h3blob (onVan v3 chain2))
  = [mkSlotInfoWithStatus 0x33 0xCC Invalid] ∧
  published (onVan v3 chain2) (onPan 3 h3 (onVan v3 chain2))
  = [mkSlotInfoWithStatus 0x33 0xCC Verified].
Proof. vm_compute. repeat split. Qed.

(** The write of slot 1 on a disk that refuses writes: the error comes
    back, nothing is published, nothing is evicted. *)
Lemma write_failure_witness :
  (insertIntoChain v1 h1 None 0 (breakDisk (onVan v1 genesis))).2
  = Return (Some (errors_Wrap ioError "failed to write shard info in db")) ∧
  published (breakDisk (onVan v1 genesis))
            (insertIntoChain v1 h1 None 0 (breakDisk (onVan v1 genesis))).1 = [] ∧
  verifiedSlotInfoFeed (insertIntoChain v1 h1 None 0 (breakDisk (onVan v1 genesis))).1
  = verifiedSlotInfoFeed (breakDisk (onVan v1 genesis)) ∧
  panHeaderCache (insertIntoChain v1 h1 None 0 (breakDisk (onVan v1 genesis))).1
  = panHeaderCache (breakDisk (onVan v1 genesis)) ∧
  vanShardCache (insertIntoChain v1 h1 None 0 (breakDisk (onVan v1 genesis))).1
  = vanShardCache (breakDisk (onVan v1 genesis)).
Proof.
  apply (proj1 (insertIntoChain_write_failure_is_silent
                  v1 h1 None 0 (breakDisk (onVan v1 genesis)))
               (breakDisk (onVan v1 genesis)) (db (breakDisk (onVan v1 genesis))) ioError).
  - reflexivity.
  - reflexivity.
  - left. reflexivity.
Defined.

(** The fork block and its header at [forked]: on a disk that refuses
    writes the rewind fails and the call is silent; on a healthy disk
    the status is resolved and the pair is appended after the rewind. *)
Lemma reorg_resolution_witness :
  (insertIntoChain v4f h4f (Some rec1) 1 (breakDisk forked)
   = (breakDisk forked, Return None) ∧
   published (breakDisk forked)
             (insertIntoChain v4f h4f (Some rec1) 1 (breakDisk forked)).1 = [] ∧
   curReorgStatus (insertIntoChain v4f h4f (Some rec1) 1 (breakDisk forked)).1
   = Some forkStatus) ∧
  (curReorgStatus (insertIntoChain v4f h4f (Some rec1) 1 forked).1
   = Some (markResolved forkStatus) ∧
   published forked (insertIntoChain v4f h4f (Some rec1) 1 forked).1
   = [mkSlotInfoWithStatus 0x4F 0xF4 Verified] ∧
   LatestStepID (db (insertIntoChain v4f h4f (Some rec1) 1 forked).1) = 2).
Proof.
  split.
  - pose proof (insertIntoChain_reorg_resolution
                  v4f h4f (Some rec1) 1 (breakDisk forked) forkStatus
                  eq_refl eq_refl eq_refl eq_refl eq_refl) as H.
    vm_compute in H. destruct H as (H1 & H2 & H3 & _).
    split; [exact H1 | split; [exact H2 | exact H3]].
  - pose proof (insertIntoChain_reorg_resolution
                  v4f h4f (Some rec1) 1 forked forkStatus
                  eq_refl eq_refl eq_refl eq_refl eq_refl) as H.
    vm_compute in H. destruct H as (H1 & _ & H2 & H3 & _).
    split; [exact H1 | split; [exact H3 | vm_compute; reflexivity]].
Defined.

(** C5 fails as stated.  A fork block for slot 4 arrives while the
    status of another fork block of that slot is held: the ancestor is
    found, yet the held status stays, with the other block root. *)
Lemma held_reorg_status_is_kept :
  checkReorg v4g (Some rec3) 3 (db forked) = Ok (Some rec1, 1) ∧
  NotNil rec1 = true ∧
  vanguardShortCircuit v4g forked = false ∧
  vBlockRoot v4g = 0xF5 ∧
  curReorgStatus (processVanguardShardInfo now (Some v4g) forked).1
  = Some (mkReorgStatus 4 0xF4 1 (Some rec1) 0x4F false).
Proof. vm_compute. repeat split. Qed.

(** The fork block at [chain3], where no status is held. *)
Lemma reorg_install_witness :
  processVanguardShardInfo now (Some v4f) chain3
  = vanguardPair now v4f (Some rec1, 1) (withReorgStatus chain3 (Some forkStatus)) ∧
  curReorgStatus (withReorgStatus chain3 (Some forkStatus)) = Some forkStatus.
Proof.
  pose proof (vanguard_reorg_installs_when_free
                now v4f chain3 (Some rec3) rec1 1
                eq_refl eq_refl eq_refl eq_refl eq_refl) as H.
  cbv zeta in H. destruct H as (H1 & _).
  split; [exact H1 | reflexivity].
Defined.

(** An orphan header at [chain1] and an orphan shard at genesis. *)
Lemma unknown_parent_witness :
  ((processPandoraHeader (Some (mkPandoraHeaderInfo 2 hOrphan)) chain1).2 = Return None ∧
   published chain1 (processPandoraHeader (Some (mkPandoraHeaderInfo 2 hOrphan)) chain1).1
   = [mkSlotInfoWithStatus 0x77 zeroHash Invalid]) ∧
  ((processVanguardShardInfo now (Some vOrphan) genesis).2 = Return None ∧
   published genesis (processVanguardShardInfo now (Some vOrphan) genesis).1 = []).
Proof.
  split.
  - destruct (proj1 unknown_parent_is_not_propagated
                    (mkPandoraHeaderInfo 2 hOrphan) chain1 (Some rec1)
                    (panHeaderCache chain1) unknownParent) as (H1 & H2 & _).
    + vm_compute. reflexivity.
    + vm_compute. reflexivity.
    + vm_compute. reflexivity.
    + vm_compute. reflexivity.
    + split; [exact H1 | exact H2].
  - destruct (proj2 unknown_parent_is_not_propagated
                    now vOrphan genesis None (None, 0)
                    (vanShardCache genesis) unknownParent) as (H1 & H2 & _).
    + vm_compute. reflexivity.
    + vm_compute. reflexivity.
    + vm_compute. reflexivity.
    + vm_compute. reflexivity.
    + vm_compute. discriminate.
    + vm_compute. reflexivity.
    + split; [exact H1 | exact H2].
Defined.

(** Three calls on the empty store, then one with smaller values. *)
Lemma finality_witness :
  FinalizedSlot (runFinalize [(5, 1); (3, 2)] emptyDB)
  ≤ FinalizedSlot (runFinalize ([(5, 1); (3, 2)] ++ [(7, 0)]) emptyDB) ∧
  FinalizedEpoch (runFinalize [(5, 1); (3, 2)] emptyDB)
  ≤ FinalizedEpoch (runFinalize ([(5, 1); (3, 2)] ++ [(7, 0)]) emptyDB) ∧
  writeFinalizeInfo 0 0 emptyDB = emptyDB.
Proof.
  destruct (finality_is_monotone emptyDB mem_finalityRegisters) as (H1 & _ & _ & H4).
  destruct (H1 [(5, 1); (3, 2)] [(7, 0)]) as [Hs He].
  split; [exact Hs|]. split; [exact He|].
  apply H4; vm_compute; discriminate.
Defined.

(** A slot that is not indexed, and an indexed slot whose record cannot
    be read. *)
Lemma read_error_witness :
  (getShardingInfo 9 chain1 = None ∧
   processPandoraHeader (Some (mkPandoraHeaderInfo 9 hOrphan)) chain1
   = pandoraNormalPath (mkPandoraHeaderInfo 9 hOrphan) chain1) ∧
  (getShardingInfo 1 (blindDisk chain1) = None ∧
   processVanguardShardInfo now (Some v1) (blindDisk chain1)
   = vanguardNormalPath now v1 (blindDisk chain1)).
Proof.
  split.
  - destruct (getShardingInfo_swallows_read_errors 9 chain1) as (H1 & H2 & _).
    + left. eexists. reflexivity.
    + split; [exact H1 | by apply H2].
  - destruct (getShardingInfo_swallows_read_errors 1 (blindDisk chain1)) as (H1 & _ & H3).
    + right. exists 1, ioError. split; reflexivity.
    + split; [exact H1 | by apply H3].
Defined.

(** C3, on the code.  The replay of the slot-2 pair at [chain2]
    (header, then shard): no append and the head pointer stays, but the
    header alone is answered from the store; the shard is not, so one
    [Verified] confirmation is published, not two. *)
Lemma replay_publishes_once :
  published chain2 (onVan v2 (onPan 2 h2 chain2))
  = [mkSlotInfoWithStatus 0x22 0xBB Verified] ∧
  published chain2 (onPan 2 h2 chain2) = [mkSlotInfoWithStatus 0x22 0xBB Verified] ∧
  published (onPan 2 h2 chain2) (onVan v2 (onPan 2 h2 chain2)) = [] ∧
  db (onVan v2 (onPan 2 h2 chain2)) = db chain2 ∧
  LatestStepID (db (onVan v2 (onPan 2 h2 chain2))) = 2.
Proof. vm_compute. repeat split. Qed.

(** C4, on the code.  The slot-2 shard at [chain2], where slot 2 is
    verified with that very block root: the call is not stopped, it
    caches the shard and installs a reorg status, and publishes
    nothing.  The same shard with another block root is what the call
    stops for, silently. *)
Lemma vanguard_short_circuit_is_inverted :
  getShardingInfo 2 chain2 = Some rec2 ∧
  GetVanSlotRoot rec2 = vBlockRoot v2 ∧
  processVanguardShardInfo now (Some v2) chain2 = vanguardNormalPath now v2 chain2 ∧
  published chain2 (processVanguardShardInfo now (Some v2) chain2).1 = [] ∧
  vanGet 2 (vanShardCache (processVanguardShardInfo now (Some v2) chain2).1)
  = Some (mkVanCacheEntry (Some v2) (Some rec1) true false) ∧
  vanGet 2 (vanShardCache chain2) = None ∧
  curReorgStatus (processVanguardShardInfo now (Some v2) chain2).1
  = Some (mkReorgStatus 2 0xBB 1 (Some rec1) 0x22 false) ∧
  vBlockRoot v2x = 0xBC ∧
  processVanguardShardInfo now (Some v2x) chain2 = (chain2, Return None).
Proof. vm_compute. repeat split. Qed.

End MemFacts.

(** ** More about the entry points *)

Section EntryPoints.
Context {D PC VC : Type}.
Context `{!Database D, !PandoraCache PC, !VanguardCache VC, !Verification D}.

Abbreviation Svc := (Service D PC VC).

Implicit Types (s : Svc) (v : VanguardShardInfo) (h : Header) (hi : PandoraHeaderInfo).

(** The feed of a call's result, split at what the call found. *)
Lemma feed_published s s' l :
  verifiedSlotInfoFeed s' = verifiedSlotInfoFeed s ++ l →
  verifiedSlotInfoFeed s' = verifiedSlotInfoFeed s ++ published s s' ∧ published s s' = l.
Proof.
  intros E. rewrite (published_app s s' l E). done.
Qed.

(** [insertIntoChain] keeps the feed it was given and adds at most one
    event. *)
Lemma insertIntoChain_feed v h latest stepId s :
  ∃ l, verifiedSlotInfoFeed (insertIntoChain v h latest stepId s).1
       = verifiedSlotInfoFeed s ++ l ∧
       (l = [] ∨ ∃ st, l = [mkSlotInfoWithStatus (hHash h) (vBlockRoot v) st]).
Proof.
  destruct (insertIntoChain_published v h latest stepId s) as [E [E'|E']];
    cbv zeta in *; rewrite E' in E.
  - exists []. split; [done | by left].
  - eexists. split; [exact E | right; by eexists].
Qed.

(** X1. The pandora short-circuit: when the record verified at the
    header's slot is non-nil and carries the header's hash, the call
    publishes [Verified] for the stored pair and returns nil; store,
    caches and reorg status are not touched. *)
Theorem pandora_short_circuit_republishes hi s shardInfo :
  getShardingInfo (pSlot hi) s = Some shardInfo →
  NotNil shardInfo = true →
  GetPanShardRoot shardInfo = hHash (pHeader hi) →
  processPandoraHeader (Some hi) s
  = (publishBlockConfirmation (hHash (pHeader hi)) (GetVanSlotRoot shardInfo) Verified s,
     Return None) ∧
  published s (processPandoraHeader (Some hi) s).1
  = [mkSlotInfoWithStatus (hHash (pHeader hi)) (msSlotBlockRoot shardInfo) Verified] ∧
  db (processPandoraHeader (Some hi) s).1 = db s ∧
  panHeaderCache (processPandoraHeader (Some hi) s).1 = panHeaderCache s ∧
  vanShardCache (processPandoraHeader (Some hi) s).1 = vanShardCache s ∧
  curReorgStatus (processPandoraHeader (Some hi) s).1 = curReorgStatus s.
Proof.
  intros E Hnn Hroot.
  assert (Er : processPandoraHeader (Some hi) s
               = (publishBlockConfirmation (hHash (pHeader hi)) (GetVanSlotRoot shardInfo)
                                           Verified s, Return None)).
  { unfold processPandoraHeader, pandoraShortCircuit.
    rewrite E, Hnn, Hroot, N.eqb_refl. simpl. by rewrite Hroot. }
  rewrite Er. simpl. repeat split. by apply published_app.
Qed.

(** X2. A store whose tip cannot be read, or whose tip is nil above
    step 0, stops both entry points: the error goes back to the caller
    and the service is left as it was. *)
Theorem corrupted_store_stops_entry_points :
  (∀ hi s err,
     pandoraShortCircuit hi s = None →
     VerifiedShardInfo (LatestStepID (db s)) (db s) = Err err →
     processPandoraHeader (Some hi) s
     = (s, Return (Some (errors_Wrap err
                           "DB is corrupted! Failed to retrieve latest shard info")))) ∧
  (∀ hi s latest,
     pandoraShortCircuit hi s = None →
     VerifiedShardInfo (LatestStepID (db s)) (db s) = Ok latest →
     0 < LatestStepID (db s) → ptrIsNil latest = true →
     processPandoraHeader (Some hi) s
     = (s, Return (Some (errors_New "nil latest shard info")))) ∧
  (∀ now v s err,
     vanguardShortCircuit v s = false →
     VerifiedShardInfo (LatestStepID (db s)) (db s) = Err err →
     processVanguardShardInfo now (Some v) s
     = (s, Return (Some (errors_Wrap err
                           "DB is corrupted! Failed to retrieve latest shard info")))) ∧
  (∀ now v s latest,
     vanguardShortCircuit v s = false →
     VerifiedShardInfo (LatestStepID (db s)) (db s) = Ok latest →
     0 < LatestStepID (db s) → ptrIsNil latest = true →
     processVanguardShardInfo now (Some v) s
     = (s, Return (Some (errors_New "nil latest shard info")))).
Proof.
  split; [|split; [|split]].
  - intros hi s err Esc Eread.
    unfold processPandoraHeader, pandoraNormalPath. by rewrite Esc, Eread.
  - intros hi s latest Esc Eread Hpos%N.ltb_lt Hnil.
    unfold processPandoraHeader, pandoraNormalPath. by rewrite Esc, Eread, Hpos, Hnil.
  - intros now v s err Esc Eread.
    unfold processVanguardShardInfo, vanguardNormalPath. by rewrite Esc, Eread.
  - intros now v s latest Esc Eread Hpos%N.ltb_lt Hnil.
    unfold processVanguardShardInfo, vanguardNormalPath. by rewrite Esc, Eread, Hpos, Hnil.
Qed.

(** X3. When [checkReorg] fails the shard is dropped: the call returns
    nil, and nothing is cached, installed or published. *)
Theorem failed_reorg_check_drops_shard now v s headShardInfo err :
  vanguardShortCircuit v s = false →
  VerifiedShardInfo (LatestStepID (db s)) (db s) = Ok headShardInfo →
  (0 <? LatestStepID (db s)) && ptrIsNil headShardInfo = false →
  checkReorg v headShardInfo (LatestStepID (db s)) (db s) = Err err →
  processVanguardShardInfo now (Some v) s = (s, Return None).
Proof.
  intros Esc Eread Enil Echeck.
  unfold processVanguardShardInfo, vanguardNormalPath.
  by rewrite Esc, Eread, Enil, Echeck.
Qed.

(** Past the short-circuit and the tip checks, an entry point is its
    second half. *)
Lemma pandora_reaches_pair hi s latest :
  pandoraShortCircuit hi s = None →
  VerifiedShardInfo (LatestStepID (db s)) (db s) = Ok latest →
  (0 <? LatestStepID (db s)) && ptrIsNil latest = false →
  processPandoraHeader (Some hi) s
  = pandoraPair hi (pandoraTip (pHeader hi) (latest, LatestStepID (db s)) s) s.
Proof.
  intros Esc Eread Enil.
  unfold processPandoraHeader, pandoraNormalPath. by rewrite Esc, Eread, Enil.
Qed.

Lemma vanguard_reaches_pair now v s head found :
  vanguardShortCircuit v s = false →
  VerifiedShardInfo (LatestStepID (db s)) (db s) = Ok head →
  (0 <? LatestStepID (db s)) && ptrIsNil head = false →
  checkReorg v head (LatestStepID (db s)) (db s) = Ok found →
  processVanguardShardInfo now (Some v) s
  = vanguardPair now v (installReorg v found (head, LatestStepID (db s)) s).2
                 (installReorg v found (head, LatestStepID (db s)) s).1.
Proof.
  intros Esc Eread Enil Echeck.
  unfold processVanguardShardInfo, vanguardNormalPath.
  by rewrite Esc, Eread, Enil, Echeck.
Qed.

(** X4. A slot that is already in progress: the error of
    [MarkInProgress] goes back to the caller, nothing is published and
    the store is not touched. *)
Theorem slot_in_progress_is_surfaced :
  (∀ hi s latest c1 c2 err,
     pandoraShortCircuit hi s = None →
     VerifiedShardInfo (LatestStepID (db s)) (db s) = Ok latest →
     (0 <? LatestStepID (db s)) && ptrIsNil latest = false →
     panPut (pSlot hi)
            (mkPanCacheInsertParams (pHeader hi)
               (pandoraTip (pHeader hi) (latest, LatestStepID (db s)) s).1)
            (panHeaderCache s) = (c1, None) →
     panMarkInProgress (pSlot hi) c1 = (c2, Some err) →
     let r := processPandoraHeader (Some hi) s in
     r.2 = Return (Some err) ∧ published s r.1 = [] ∧
     db r.1 = db s ∧ panHeaderCache r.1 = c2 ∧ vanShardCache r.1 = vanShardCache s) ∧
  (∀ now v s head found c1 c2 err,
     vanguardShortCircuit v s = false →
     VerifiedShardInfo (LatestStepID (db s)) (db s) = Ok head →
     (0 <? LatestStepID (db s)) && ptrIsNil head = false →
     checkReorg v head (LatestStepID (db s)) (db s) = Ok found →
     secondsPerSlot s ≠ 0 →
     vanPut (vSlot v)
            (mkVanCacheInsertParams (vSlot v <? sub64 now (genesisTime s) / secondsPerSlot s)
               v (installReorg v found (head, LatestStepID (db s)) s).2.1)
            (vanShardCache s) = (c1, None) →
     vanMarkInProgress (vSlot v) c1 = (c2, Some err) →
     let r := processVanguardShardInfo now (Some v) s in
     r.2 = Return (Some err) ∧ published s r.1 = [] ∧
     db r.1 = db s ∧ vanShardCache r.1 = c2 ∧ panHeaderCache r.1 = panHeaderCache s).
Proof.
  split.
  - intros hi s latest c1 c2 err Esc Eread Enil Eput Emark r. subst r.
    rewrite (pandora_reaches_pair hi s latest Esc Eread Enil).
    unfold pandoraPair. rewrite Eput, Emark. simpl.
    repeat split. by apply published_same.
  - intros now v s head found c1 c2 err Esc Eread Enil Echeck Hsec%N.eqb_neq Eput Emark r.
    subst r. rewrite (vanguard_reaches_pair now v s head found Esc Eread Enil Echeck).
    destruct (installReorg_frame v found (head, LatestStepID (db s)) s)
      as (Ed & Ep & Ev & Ef & Eg & Es).
    cbv zeta in *. unfold vanguardPair.
    rewrite Es, Hsec, Eg, Ev, Eput, Emark. simpl.
    repeat split; try done. by apply published_same.
Qed.

(** X5. A call of an entry point only appends to the feed, and appends
    at most one event. *)
Theorem entry_points_publish_at_most_once :
  (∀ (headerInfo : option PandoraHeaderInfo) s,
     verifiedSlotInfoFeed (processPandoraHeader headerInfo s).1
     = verifiedSlotInfoFeed s ++ published s (processPandoraHeader headerInfo s).1 ∧
     (length (published s (processPandoraHeader headerInfo s).1) ≤ 1)%nat) ∧
  (∀ now (vanShardInfo : option VanguardShardInfo) s,
     verifiedSlotInfoFeed (processVanguardShardInfo now vanShardInfo s).1
     = verifiedSlotInfoFeed s ++ published s (processVanguardShardInfo now vanShardInfo s).1 ∧
     (length (published s (processVanguardShardInfo now vanShardInfo s).1) ≤ 1)%nat).
Proof.
  assert (Hwrap : ∀ (s s' : Svc),
            (∃ l, verifiedSlotInfoFeed s' = verifiedSlotInfoFeed s ++ l ∧ (length l ≤ 1)%nat) →
            verifiedSlotInfoFeed s' = verifiedSlotInfoFeed s ++ published s s' ∧
            (length (published s s') ≤ 1)%nat).
  { intros s s' (l & E & Hl). destruct (feed_published s s' l E) as [E1 E2].
    by rewrite E2 in *. }
  assert (Hnil : ∀ s : Svc, ∃ l, verifiedSlotInfoFeed s = verifiedSlotInfoFeed s ++ l ∧
                                 (length l ≤ 1)%nat).
  { intros s. exists []. rewrite app_nil_r. split; [done | simpl; lia]. }
  assert (Hchain : ∀ v h latest stepId (s : Svc),
            ∃ l, verifiedSlotInfoFeed (insertIntoChain v h latest stepId s).1
                 = verifiedSlotInfoFeed s ++ l ∧ (length l ≤ 1)%nat).
  { intros v h latest stepId s.
    destruct (insertIntoChain_feed v h latest stepId s) as (l & E & [->|[st ->]]);
      eexists; (split; [exact E | simpl; lia]). }
  split.
  - intros headerInfo s. apply Hwrap.
    destruct headerInfo as [hi|]; [|apply Hnil].
    unfold processPandoraHeader.
    destruct (pandoraShortCircuit hi s) as [shardInfo|].
    { eexists. split; [reflexivity | simpl; lia]. }
    unfold pandoraNormalPath.
    destruct (VerifiedShardInfo _ (db s)) as [latest|err]; [|apply Hnil].
    destruct ((0 <? LatestStepID (db s)) && ptrIsNil latest); [apply Hnil|].
    unfold pandoraPair.
    destruct (panPut _ _ _) as [c1 [err|]].
    { eexists. split; [reflexivity | simpl; lia]. }
    destruct (panMarkInProgress _ c1) as [c2 [err|]]; [apply (Hnil s)|].
    cbv zeta.
    destruct (vanGet _ _) as [entry|]; [|apply (Hnil s)].
    destruct (GetVanShard entry) as [vanShard|]; [|apply (Hnil s)].
    apply (Hchain vanShard (pHeader hi) _ _ (withPanCache s c2)).
  - intros now vanShardInfo s. apply Hwrap.
    destruct vanShardInfo as [v|]; [|apply Hnil].
    unfold processVanguardShardInfo.
    destruct (vanguardShortCircuit v s); [apply Hnil|].
    unfold vanguardNormalPath.
    destruct (VerifiedShardInfo _ (db s)) as [head|err]; [|apply Hnil].
    destruct ((0 <? LatestStepID (db s)) && ptrIsNil head); [apply Hnil|].
    destruct (checkReorg _ _ _ _) as [found|err]; [|apply Hnil].
    destruct (installReorg_frame v found (head, LatestStepID (db s)) s)
      as (Ed & Ep & Ev & Ef & Eg & Es).
    cbv zeta in *.
    set (i := installReorg v found (head, LatestStepID (db s)) s) in *.
    rewrite <- Ef.
    unfold vanguardPair.
    destruct (secondsPerSlot i.1 =? 0); [apply (Hnil i.1)|].
    destruct (vanPut _ _ _) as [c1 [err|]]; [apply (Hnil i.1)|].
    destruct (vanMarkInProgress _ c1) as [c2 [err|]]; [apply (Hnil i.1)|].
    cbv zeta.
    destruct (panGet _ _) as [entry|]; [|apply (Hnil i.1)].
    destruct (GetPanHeader entry) as [header|]; [|apply (Hnil i.1)].
    apply (Hchain v header _ _ (withVanCache i.1 c2)).
Qed.

(** How [processPandoraHeader] can end past the short-circuit. *)
Lemma pandoraNormalPath_shape hi s :
  let r := pandoraNormalPath hi s in
  (∃ e, r = (s, Return (Some e))) ∨
  (∃ c1, r = (publishBlockConfirmation (hHash (pHeader hi)) zeroHash Invalid
                                       (withPanCache s c1), Return None)) ∨
  (∃ c2 out, r = (withPanCache s c2, out)) ∨
  (∃ c2 entry vanShard latest,
     vanGet (pSlot hi) (vanShardCache s) = Some entry ∧
     GetVanShard entry = Some vanShard ∧
     let res := insertIntoChain vanShard (pHeader hi) latest.1 latest.2 (withPanCache s c2) in
     r = (withPanCache res.1 (panMarkNotInProgress (pSlot hi) (panHeaderCache res.1)),
          res.2)).
Proof.
  intros r. subst r. unfold pandoraNormalPath.
  destruct (VerifiedShardInfo _ (db s)) as [latest|err]; [|left; by eexists].
  destruct ((0 <? LatestStepID (db s)) && ptrIsNil latest); [left; by eexists|].
  right. unfold pandoraPair.
  destruct (panPut _ _ _) as [c1 [err|]]; [left; by eexists|].
  right.
  destruct (panMarkInProgress _ c1) as [c2 [err|]]; [left; by do 2 eexists|].
  cbv zeta.
  destruct (vanGet _ _) as [entry|] eqn:Ev; [|left; by do 2 eexists].
  destruct (GetVanShard entry) as [vanShard|] eqn:Es; [|left; by do 2 eexists].
  right.
  by exists c2, entry, vanShard, (pandoraTip (pHeader hi) (latest, LatestStepID (db s)) s).
Qed.

(** How a call of [processPandoraHeader] can end. *)
Lemma pandora_shape hi s :
  let r := processPandoraHeader (Some hi) s in
  (∃ shardInfo, getShardingInfo (pSlot hi) s = Some shardInfo ∧
     GetPanShardRoot shardInfo = hHash (pHeader hi) ∧
     r = (publishBlockConfirmation (GetPanShardRoot shardInfo) (GetVanSlotRoot shardInfo)
                                   Verified s, Return None)) ∨
  r = pandoraNormalPath hi s.
Proof.
  intros r. subst r. unfold processPandoraHeader, pandoraShortCircuit.
  destruct (getShardingInfo (pSlot hi) s) as [shardInfo|] eqn:Eg; [|by right].
  destruct (NotNil shardInfo && (GetPanShardRoot shardInfo =? hHash (pHeader hi))) eqn:Ec;
    [|by right].
  left. exists shardInfo. apply andb_true_iff in Ec as [_ Ec%N.eqb_eq]. done.
Qed.

(** How a call of [processVanguardShardInfo] can end: either it changed
    at most the reorg status and the vanguard cache, or it ran
    [insertIntoChain] on the header cached for the slot. *)
Lemma vanguard_shape now v s :
  let r := processVanguardShardInfo now (Some v) s in
  (∃ status c out,
     r = (mkService (db s) (panHeaderCache s) c status (verifiedSlotInfoFeed s)
                    (genesisTime s) (secondsPerSlot s), out)) ∨
  (∃ status c2 entry header head,
     panGet (vSlot v) (panHeaderCache s) = Some entry ∧
     GetPanHeader entry = Some header ∧
     let s2 := mkService (db s) (panHeaderCache s) c2 status (verifiedSlotInfoFeed s)
                         (genesisTime s) (secondsPerSlot s) in
     let res := insertIntoChain v header head.1 head.2 s2 in
     r = (withVanCache res.1 (vanMarkNotInProgress (vSlot v) (vanShardCache res.1)),
          res.2)).
Proof.
  intros r. subst r.
  assert (Hsame : ∀ out : outcome, ∃ status c (out' : outcome),
            (s, out) = (mkService (db s) (panHeaderCache s) c status (verifiedSlotInfoFeed s)
                                  (genesisTime s) (secondsPerSlot s), out')).
  { intros out. exists (curReorgStatus s), (vanShardCache s), out. by destruct s. }
  unfold processVanguardShardInfo.
  destruct (vanguardShortCircuit v s); [left; apply Hsame|].
  unfold vanguardNormalPath.
  destruct (VerifiedShardInfo _ (db s)) as [head|err]; [|left; apply Hsame].
  destruct ((0 <? LatestStepID (db s)) && ptrIsNil head); [left; apply Hsame|].
  destruct (checkReorg _ _ _ _) as [found|err]; [|left; apply Hsame].
  destruct (installReorg_frame v found (head, LatestStepID (db s)) s)
    as (Ed & Ep & Ev & Ef & Eg & Es).
  cbv zeta in *.
  set (i := installReorg v found (head, LatestStepID (db s)) s) in *.
  assert (Ei : ∀ c, withVanCache i.1 c
                    = mkService (db s) (panHeaderCache s) c (curReorgStatus i.1)
                                (verifiedSlotInfoFeed s) (genesisTime s) (secondsPerSlot s)).
  { intros c. unfold withVanCache. by rewrite Ed, Ep, Ef, Eg, Es. }
  assert (Ei' : i.1 = mkService (db s) (panHeaderCache s) (vanShardCache i.1)
                                (curReorgStatus i.1) (verifiedSlotInfoFeed s)
                                (genesisTime s) (secondsPerSlot s)).
  { rewrite <- Ei. by destruct (i.1). }
  unfold vanguardPair.
  destruct (secondsPerSlot i.1 =? 0).
  { left. rewrite Ei'. by do 3 eexists. }
  destruct (vanPut _ _ _) as [c1 [err|]].
  { left. rewrite Ei. by do 3 eexists. }
  destruct (vanMarkInProgress _ c1) as [c2 [err|]].
  { left. rewrite Ei. by do 3 eexists. }
  cbv zeta. simpl panHeaderCache. rewrite Ep.
  destruct (panGet _ _) as [entry|] eqn:Eget.
  - destruct (GetPanHeader entry) as [header|] eqn:Eh.
    + right. exists (curReorgStatus i.1), c2, entry, header, i.2.
      split; [done|]. split; [done|]. cbv zeta. by rewrite <- Ei.
    + left. exists (curReorgStatus i.1), (vanMarkNotInProgress (vSlot v) c2), (Return None).
      simpl. unfold withVanCache. simpl. by rewrite Ed, Ep, Ef, Eg, Es.
  - left. exists (curReorgStatus i.1), (vanMarkNotInProgress (vSlot v) c2), (Return None).
    simpl. unfold withVanCache. simpl. by rewrite Ed, Ep, Ef, Eg, Es.
Qed.

(** [insertIntoChain] always returns. *)
Lemma insertIntoChain_returns v h latest stepId s :
  ∃ e, (insertIntoChain v h latest stepId s).2 = Return e.
Proof.
  destruct (insertIntoChain_cases v h latest stepId s); by eexists.
Qed.

(** X6. [insertIntoChain] hands back an error only when the store
    write failed, and then it is that failure, wrapped; every other way
    out (mismatch, failed rewind, success) returns nil. *)
Theorem insertIntoChain_error_is_write_failure v h latest stepId s :
  let record := PrepareMultiShardData v h TotalExecutionShardCount ShardsPerVanBlock in
  let r := insertIntoChain v h latest stepId s in
  (∀ e, r.2 = Return (Some e) →
        ∃ s1 d2 err,
          compareShardingInfo h (vShardInfo v) && verifyShardInfo latest h v stepId = true ∧
          reorgStep v s = inr s1 ∧ appendFailed record (db s1) d2 err ∧
          e = errors_Wrap err "failed to write shard info in db" ∧
          r.1 = withDB s1 d2) ∧
  (∃ e, r.2 = Return e).
Proof.
  intros record r. subst r.
  destruct (insertIntoChain_cases v h latest stepId s)
    as [Eok|s1 Eok Er|s1 d2 err Eok Er Ew|s1 d2 Eok Er Ew]; simpl.
  - split; [done | by eexists].
  - split; [done | by eexists].
  - split; [|by eexists]. intros e [= <-]. exists s1, d2, err.
    repeat split; try done. by apply writeShardInfoInDB_failed.
  - split; [done | by eexists].
Qed.

(** X7. The caches are evicted exactly when [Verified] is published:
    then both caches lose the shard's slot and the call returns nil;
    otherwise both caches are left as they were. *)
Theorem insertIntoChain_evicts_iff_verified v h latest stepId s :
  let r := insertIntoChain v h latest stepId s in
  let verified := mkSlotInfoWithStatus (hHash h) (vBlockRoot v) Verified in
  (verified ∈ published s r.1 →
     panHeaderCache r.1 = panForceDelSlot (vSlot v) (panHeaderCache s) ∧
     vanShardCache r.1 = vanForceDelSlot (vSlot v) (vanShardCache s) ∧
     r.2 = Return None) ∧
  (verified ∉ published s r.1 →
     panHeaderCache r.1 = panHeaderCache s ∧ vanShardCache r.1 = vanShardCache s).
Proof.
  intros r verified. subst r.
  destruct (insertIntoChain_cases v h latest stepId s)
    as [Eok|s1 Eok Er|s1 d2 err Eok Er Ew|s1 d2 Eok Er Ew]; simpl fst; simpl snd.
  - rewrite (published_app s _ [mkSlotInfoWithStatus (hHash h) (vBlockRoot v) Invalid])
      by done.
    split; [|done]. intros Hin%list_elem_of_singleton. by inversion Hin.
  - destruct (reorgStep_frame v s s1 (or_introl Er)) as (Ef & Ep & Ev).
    rewrite (published_same s s1 Ef). split; [by intros ?%elem_of_nil | done].
  - destruct (reorgStep_frame v s s1 (or_intror Er)) as (Ef & Ep & Ev).
    rewrite (published_same s (withDB s1 d2) Ef).
    split; [by intros ?%elem_of_nil | done].
  - destruct (reorgStep_frame v s s1 (or_intror Er)) as (Ef & Ep & Ev).
    rewrite (published_app s _ [mkSlotInfoWithStatus (hHash h) (vBlockRoot v) Verified])
      by (simpl; by rewrite Ef).
    split.
    + intros _. simpl. by rewrite Ep, Ev.
    + intros Hn. destruct Hn. by apply list_elem_of_singleton.
Qed.

(** X8. With [secondsPerSlot = 0] a shard that gets past [checkReorg]
    ends the call in the divide-by-zero panic of the slot clock: the
    reorg status may already be replaced, nothing is cached or
    published.  With any other slot length the call never ends that
    way. *)
Theorem zero_slot_length_panics now v s :
  (∀ head found,
     vanguardShortCircuit v s = false →
     VerifiedShardInfo (LatestStepID (db s)) (db s) = Ok head →
     (0 <? LatestStepID (db s)) && ptrIsNil head = false →
     checkReorg v head (LatestStepID (db s)) (db s) = Ok found →
     secondsPerSlot s = 0 →
     processVanguardShardInfo now (Some v) s
     = ((installReorg v found (head, LatestStepID (db s)) s).1,
        Panic "runtime error: integer divide by zero")) ∧
  (secondsPerSlot s ≠ 0 →
   ∃ e, (processVanguardShardInfo now (Some v) s).2 = Return e).
Proof.
  split.
  - intros head found Esc Eread Enil Echeck Hz.
    rewrite (vanguard_reaches_pair now v s head found Esc Eread Enil Echeck).
    destruct (installReorg_frame v found (head, LatestStepID (db s)) s)
      as (_ & _ & _ & _ & _ & Es).
    cbv zeta in Es. unfold vanguardPair. by rewrite Es, Hz.
  - intros Hsec%N.eqb_neq.
    unfold processVanguardShardInfo.
    destruct (vanguardShortCircuit v s); [by eexists|].
    unfold vanguardNormalPath.
    destruct (VerifiedShardInfo _ (db s)) as [head|err]; [|by eexists].
    destruct ((0 <? LatestStepID (db s)) && ptrIsNil head); [by eexists|].
    destruct (checkReorg _ _ _ _) as [found|err]; [|by eexists].
    destruct (installReorg_frame v found (head, LatestStepID (db s)) s)
      as (_ & _ & _ & _ & _ & Es).
    cbv zeta in Es. unfold vanguardPair. rewrite Es, Hsec.
    destruct (vanPut _ _ _) as [c1 [err|]]; [by eexists|].
    destruct (vanMarkInProgress _ c1) as [c2 [err|]]; [by eexists|].
    cbv zeta. simpl snd.
    destruct (panGet _ _) as [entry|]; [|by eexists].
    destruct (GetPanHeader entry) as [header|]; [|by eexists].
    apply insertIntoChain_returns.
Qed.

(** X10. An input whose counterpart is not cached never reaches the
    store.  A header without a cached shard leaves the store, the
    vanguard cache and the reorg status as they were; a shard without a
    cached header leaves the store and the pandora cache as they were
    and publishes nothing. *)
Theorem unpaired_input_leaves_store :
  (∀ hi s,
     (∀ entry, vanGet (pSlot hi) (vanShardCache s) = Some entry →
               GetVanShard entry = None) →
     let r := processPandoraHeader (Some hi) s in
     db r.1 = db s ∧ vanShardCache r.1 = vanShardCache s ∧
     curReorgStatus r.1 = curReorgStatus s) ∧
  (∀ now v s,
     (∀ entry, panGet (vSlot v) (panHeaderCache s) = Some entry →
               GetPanHeader entry = None) →
     let r := processVanguardShardInfo now (Some v) s in
     db r.1 = db s ∧ panHeaderCache r.1 = panHeaderCache s ∧ published s r.1 = []).
Proof.
  split.
  - intros hi s Hno r. subst r.
    destruct (pandora_shape hi s) as [(m & _ & _ & ->) | ->]; [done|].
    destruct (pandoraNormalPath_shape hi s)
      as [[e ->] | [[c1 ->] | [(c2 & out & ->) | (c2 & entry & vs & latest & Eg & Es & _)]]];
      try done.
    rewrite (Hno entry Eg) in Es. done.
  - intros now v s Hno r. subst r.
    destruct (vanguard_shape now v s)
      as [(status & c & out & ->) | (status & c2 & entry & header & head & Eg & Eh & _)].
    + simpl. repeat split. by apply published_same.
    + rewrite (Hno entry Eg) in Eh. done.
Qed.

(** X11. Whatever an entry point publishes names the input it was
    called with.  An event of the vanguard entry point carries the
    shard's block root and the hash of the header cached at the shard's
    slot.  An event of the pandora entry point carries the header's
    hash, and its root is the stored record's (the short-circuit),
    zero with [Invalid] (a rejected put), or the block root of the
    shard cached at the header's slot. *)
Theorem published_events_name_the_input :
  (∀ now v s ev,
     ev ∈ published s (processVanguardShardInfo now (Some v) s).1 →
     VanguardBlockHash ev = vBlockRoot v ∧
     ∃ entry header, panGet (vSlot v) (panHeaderCache s) = Some entry ∧
                     GetPanHeader entry = Some header ∧
                     PandoraHeaderHash ev = hHash header) ∧
  (∀ hi s ev,
     ev ∈ published s (processPandoraHeader (Some hi) s).1 →
     PandoraHeaderHash ev = hHash (pHeader hi) ∧
     ((∃ shardInfo, getShardingInfo (pSlot hi) s = Some shardInfo ∧
                    VanguardBlockHash ev = msSlotBlockRoot shardInfo ∧
                    SlotStatus ev = Verified) ∨
      (VanguardBlockHash ev = zeroHash ∧ SlotStatus ev = Invalid) ∨
      (∃ entry vanShard, vanGet (pSlot hi) (vanShardCache s) = Some entry ∧
                         GetVanShard entry = Some vanShard ∧
                         VanguardBlockHash ev = vBlockRoot vanShard))).
Proof.
  assert (Hchain : ∀ v h latest stepId (s0 s : Svc) c ev,
            verifiedSlotInfoFeed s0 = verifiedSlotInfoFeed s →
            ev ∈ published s (mkService (db (insertIntoChain v h latest stepId s0).1)
                                (panHeaderCache (insertIntoChain v h latest stepId s0).1)
                                c
                                (curReorgStatus (insertIntoChain v h latest stepId s0).1)
                                (verifiedSlotInfoFeed (insertIntoChain v h latest stepId s0).1)
                                (genesisTime (insertIntoChain v h latest stepId s0).1)
                                (secondsPerSlot (insertIntoChain v h latest stepId s0).1)) →
            PandoraHeaderHash ev = hHash h ∧ VanguardBlockHash ev = vBlockRoot v).
  { intros v h latest stepId s0 s c ev E0 Hev.
    destruct (insertIntoChain_feed v h latest stepId s0) as (l & E & Hl).
    rewrite E0 in E.
    rewrite (published_app s _ l) in Hev by exact E.
    destruct Hl as [->|[st ->]]; [by apply elem_of_nil in Hev|].
    by apply list_elem_of_singleton in Hev as ->. }
  split.
  - intros now v s ev Hev.
    destruct (vanguard_shape now v s)
      as [(status & c & out & E)|(status & c2 & entry & header & head & Eg & Eh & E)];
      cbv zeta in E; rewrite E in Hev.
    + rewrite published_same in Hev by done. by apply elem_of_nil in Hev.
    + simpl fst in Hev. unfold withVanCache in Hev.
      apply Hchain in Hev as [H1 H2]; [|done].
      split; [done|]. by exists entry, header.
  - intros hi s ev Hev.
    destruct (pandora_shape hi s) as [(m & Eg & Eroot & E)|E];
      cbv zeta in E; rewrite E in Hev.
    { rewrite (published_app s _ [mkSlotInfoWithStatus (GetPanShardRoot m)
                                    (GetVanSlotRoot m) Verified]) in Hev by done.
      apply list_elem_of_singleton in Hev as ->. simpl.
      split; [done|]. left. by exists m. }
    destruct (pandoraNormalPath_shape hi s)
      as [[e E']|[[c1 E']|[(c2 & out & E')|(c2 & entry & vs & latest & Eg & Es & E')]]];
      cbv zeta in E'; rewrite E' in Hev.
    + rewrite published_same in Hev by done. by apply elem_of_nil in Hev.
    + rewrite (published_app s _ [mkSlotInfoWithStatus (hHash (pHeader hi)) zeroHash Invalid])
        in Hev by done.
      apply list_elem_of_singleton in Hev as ->. simpl. split; [done|]. right. by left.
    + rewrite published_same in Hev by done. by apply elem_of_nil in Hev.
    + simpl fst in Hev.
      assert (Hev' : PandoraHeaderHash ev = hHash (pHeader hi) ∧
                     VanguardBlockHash ev = vBlockRoot vs).
      { destruct (insertIntoChain_feed vs (pHeader hi) latest.1 latest.2 (withPanCache s c2))
          as (l & El & Hl).
        rewrite (published_app s _ l) in Hev by exact El.
        destruct Hl as [->|[st ->]]; [by apply elem_of_nil in Hev|].
        by apply list_elem_of_singleton in Hev as ->. }
      destruct Hev' as [H1 H2]. split; [done|]. right. right. by exists entry, vs.
Qed.

End EntryPoints.

(** ** Commit, then replay *)

Section RoundTrip.
Context {D PC VC : Type}.
Context `{!Database D, !PandoraCache PC, !VanguardCache VC, !Verification D}.

Abbreviation Svc := (Service D PC VC).

Implicit Types (s : Svc) (v : VanguardShardInfo) (h : Header) (d : D).

Variable good : D → Prop.
Hypothesis store : lawfulStore good.

(** On a lawful store a successful append can be read back. *)
Lemma append_then_read (m : MultiShardInfo) d d' :
  good d → writeShardInfoInDB m d = (d', None) →
  LatestStepID d' = wrap64 (LatestStepID d + 1) ∧
  GetStepIdBySlot (msSlot m) d' = Ok (wrap64 (LatestStepID d + 1)) ∧
  VerifiedShardInfo (wrap64 (LatestStepID d + 1)) d' = Ok (Some m).
Proof.
  intros Hg (d1 & d2 & E1 & E2 & E3)%writeShardInfoInDB_ok. cbv zeta in *.
  assert (Hg1 : good d1).
  { pose proof (good_save_verified good store (wrap64 (LatestStepID d + 1)) m d Hg) as G.
    by rewrite E1 in G. }
  assert (Hg2 : good d2).
  { pose proof (good_save_latest good store (wrap64 (LatestStepID d + 1)) d1 Hg1) as G.
    by rewrite E2 in G. }
  pose proof (read_saved_record good store _ _ _ _ Hg E1) as R1.
  destruct (save_latest_sets good store _ _ _ Hg1 E2) as [L2 R2].
  destruct (save_index_sets good store _ _ _ _ Hg2 E3) as (I3 & L3 & R3).
  split; [by rewrite L3|]. split; [done|]. by rewrite R3, R2.
Qed.

(** [writeFinalizeInfo] leaves the records, the index and the head
    pointer alone. *)
Lemma writeFinalizeInfo_frame fs fe d :
  LatestStepID (writeFinalizeInfo fs fe d) = LatestStepID d ∧
  (∀ k, VerifiedShardInfo k (writeFinalizeInfo fs fe d) = VerifiedShardInfo k d) ∧
  (∀ slot, GetStepIdBySlot slot (writeFinalizeInfo fs fe d) = GetStepIdBySlot slot d).
Proof.
  unfold writeFinalizeInfo.
  set (d1 := if FinalizedSlot d <? fs then (SaveFinalizedSlot fs d).1 else d).
  assert (H1 : LatestStepID d1 = LatestStepID d ∧
               (∀ k, VerifiedShardInfo k d1 = VerifiedShardInfo k d) ∧
               (∀ slot, GetStepIdBySlot slot d1 = GetStepIdBySlot slot d)).
  { subst d1. destruct (FinalizedSlot d <? fs); [|done].
    apply (save_finalized_slot_frame good store). }
  destruct H1 as (A1 & A2 & A3).
  destruct (FinalizedEpoch d1 <? fe); [|done].
  destruct (save_finalized_epoch_frame good store fe d1) as (B1 & B2 & B3).
  split; [by rewrite B1|]. split; intros x; [by rewrite B2 | by rewrite B3].
Qed.

(** The reorg step keeps a store in working order. *)
Lemma reorgStep_good v s s1 :
  good (db s) → reorgStep v s = inr s1 → good (db s1).
Proof.
  intros Hg. unfold reorgStep.
  destruct (curReorgStatus s) as [r|]; [destruct (reorgPending v r)|].
  - pose proof (good_process_reorg good store (rParentStepId r) (rParentShardInfo r)
                                   (db s) Hg) as G.
    destruct (processReorg _ _ (db s)) as [d1 [err|]]; [done|].
    intros [= <-]. exact G.
  - by intros [= <-].
  - by intros [= <-].
Qed.

(** X12. Append, then look up: after [writeShardInfoInDB] succeeded on
    a lawful store, the head pointer is one step further (modulo
    [2^64]) and [getShardingInfo] at the record's slot returns that
    record. *)
Theorem append_then_getShardingInfo (m : MultiShardInfo) s s' :
  good (db s) →
  writeShardInfoInDB m (db s) = (db s', None) →
  LatestStepID (db s') = wrap64 (LatestStepID (db s) + 1) ∧
  getShardingInfo (msSlot m) s' = Some m.
Proof.
  intros Hg Ew.
  destruct (append_then_read m (db s) (db s') Hg Ew) as (L & I & R).
  split; [done|]. unfold getShardingInfo. by rewrite I, R.
Qed.

(** After a commit the committed record is what the short-circuit
    lookup finds at the shard's slot. *)
Lemma commit_then_lookup v h latest stepId s :
  good (db s) →
  mkSlotInfoWithStatus (hHash h) (vBlockRoot v) Verified
    ∈ published s (insertIntoChain v h latest stepId s).1 →
  getShardingInfo (msSlot (PrepareMultiShardData v h TotalExecutionShardCount
                                                 ShardsPerVanBlock))
                  (insertIntoChain v h latest stepId s).1
  = Some (PrepareMultiShardData v h TotalExecutionShardCount ShardsPerVanBlock) ∧
  panHeaderCache (insertIntoChain v h latest stepId s).1
  = panForceDelSlot (vSlot v) (panHeaderCache s).
Proof.
  intros Hg Hev.
  destruct (insertIntoChain_cases v h latest stepId s)
    as [Eok|s1 Eok Er|s1 d2 err Eok Er Ew|s1 d2 Eok Er Ew]; simpl fst in *.
  - rewrite (published_app s _ [mkSlotInfoWithStatus (hHash h) (vBlockRoot v) Invalid])
      in Hev by done.
    apply list_elem_of_singleton in Hev. by inversion Hev.
  - destruct (reorgStep_frame v s s1 (or_introl Er)) as (Ef & _ & _).
    rewrite (published_same s s1 Ef) in Hev. by apply elem_of_nil in Hev.
  - destruct (reorgStep_frame v s s1 (or_intror Er)) as (Ef & _ & _).
    rewrite (published_same s (withDB s1 d2) Ef) in Hev. by apply elem_of_nil in Hev.
  - clear Hev.
    destruct (reorgStep_frame v s s1 (or_intror Er)) as (_ & Ep & _).
    pose proof (reorgStep_good v s s1 Hg Er) as Hg1.
    destruct (append_then_read _ (db s1) d2 Hg1 Ew) as (L & I & R).
    destruct (writeFinalizeInfo_frame (vFinalizedSlot v) (vFinalizedEpoch v) d2)
      as (_ & F2 & F3).
    split; [|by simpl; rewrite Ep].
    unfold getShardingInfo. simpl db. by rewrite F3, I, F2, R.
Qed.

(** X13. Commit, then replay the header: on a lawful store, once
    [insertIntoChain] has published [Verified] for a pair, the header
    of that pair is answered by the short-circuit, with [Verified] for
    the same pair and nothing else changed. *)
Theorem committed_header_is_republished v h latest stepId s :
  preparedNamesPair →
  good (db s) →
  mkSlotInfoWithStatus (hHash h) (vBlockRoot v) Verified
    ∈ published s (insertIntoChain v h latest stepId s).1 →
  processPandoraHeader (Some (mkPandoraHeaderInfo (vSlot v) h))
                       (insertIntoChain v h latest stepId s).1
  = (publishBlockConfirmation (hHash h) (vBlockRoot v) Verified
                              (insertIntoChain v h latest stepId s).1,
     Return None).
Proof.
  intros Hprep Hg Hev.
  destruct (commit_then_lookup v h latest stepId s Hg Hev) as [Hl _].
  destruct (Hprep v h) as (Hnn & Hp & Hv & Hs). cbv zeta in *.
  rewrite Hs in Hl.
  unfold processPandoraHeader, pandoraShortCircuit. simpl pSlot. simpl pHeader.
  rewrite Hl, Hnn, Hp, N.eqb_refl. simpl. by rewrite Hp, Hv.
Qed.

(** X14. Commit, then replay the shard, as the code has it: on a lawful
    store, once [insertIntoChain] has published [Verified] for a pair,
    the shard of that pair is not answered by the short-circuit; the
    call takes the normal path and, the header being evicted,
    publishes nothing and leaves the store as it is. *)
Theorem committed_shard_is_not_republished now v h latest stepId s :
  preparedNamesPair →
  evictionRemoves →
  good (db s) →
  mkSlotInfoWithStatus (hHash h) (vBlockRoot v) Verified
    ∈ published s (insertIntoChain v h latest stepId s).1 →
  let s' := (insertIntoChain v h latest stepId s).1 in
  processVanguardShardInfo now (Some v) s' = vanguardNormalPath now v s' ∧
  published s' (processVanguardShardInfo now (Some v) s').1 = [] ∧
  db (processVanguardShardInfo now (Some v) s').1 = db s'.
Proof.
  intros Hprep Hevict Hg Hev s'.
  destruct (commit_then_lookup v h latest stepId s Hg Hev) as [Hl Hc].
  destruct (Hprep v h) as (Hnn & Hp & Hv & Hs). cbv zeta in *.
  rewrite Hs in Hl. fold s' in Hl, Hc.
  split.
  { by apply (vanguard_same_root_continues now v s' _ Hl). }
  assert (Hget : panGet (vSlot v) (panHeaderCache s') = None).
  { rewrite Hc. apply Hevict. }
  destruct (vanguard_shape now v s')
    as [(status & c & out & ->) | (status & c2 & entry & header & head & Eg & _)].
  - simpl. split; [by apply published_same | done].
  - rewrite Hget in Eg. done.
Qed.

End RoundTrip.

(** ** The extra facts at work on the in-memory instance *)

Section MoreRuns.
Import Mem Scenario Cases Held.

(** The in-memory store is lawful on its readable states. *)
Lemma mem_lawfulStore : lawfulStore (D := DB) readable.
Proof.
  unfold readable. split; simpl.
  - intros n m d Hg. unfold save_verified.
    destruct (writeFault d); [done|]. destruct (n <=? latestStepId d); [done|].
    destruct (shards d !! (n - 1)) as [prev|]; [destruct (linked prev m)|]; done.
  - intros n d Hg. unfold save_latest_step_id. by destruct (writeFault d).
  - intros n p d Hg. unfold process_reorg, remove_range, save_latest_step_id.
    destruct (writeFault d) eqn:E; simpl; [done|]. by rewrite ?E.
  - intros n m d d' Hg. unfold save_verified, verified.
    destruct (writeFault d); [done|]. destruct (n <=? latestStepId d); [done|].
    destruct (shards d !! (n - 1)) as [prev|]; [destruct (linked prev m)|];
      intros [= <-]; simpl; by rewrite Hg, lookup_insert_eq.
  - intros n d d' Hg. unfold save_latest_step_id.
    destruct (writeFault d); [done|]. by intros [= <-].
  - intros slot n d d' Hg. unfold save_slot_step_index, step_id_by_slot.
    destruct (writeFault d); [done|]. intros [= <-]; simpl.
    by rewrite lookup_insert_eq.
  - intros x d. unfold save_finalized_slot.
    destruct (writeFault d); [done|]. by destruct (finalizedSlot d <? x).
  - intros x d. unfold save_finalized_epoch.
    destruct (writeFault d); [done|]. by destruct (finalizedEpoch d <? x).
Qed.

Lemma mem_preparedNamesPair : preparedNamesPair (D := DB).
Proof. intros v h. done. Qed.

Lemma mem_evictionRemoves : evictionRemoves (PC := gmap N PanCacheEntry).
Proof. intros slot c. simpl. apply lookup_delete_eq. Qed.

(** The header of slot 2 at [chain2]. *)
Lemma short_circuit_witness :
  processPandoraHeader (Some (mkPandoraHeaderInfo 2 h2)) chain2
  = (publishBlockConfirmation 0x22 0xBB Verified chain2, Return None) ∧
  published chain2 (processPandoraHeader (Some (mkPandoraHeaderInfo 2 h2)) chain2).1
  = [mkSlotInfoWithStatus 0x22 0xBB Verified].
Proof.
  destruct (pandora_short_circuit_republishes (mkPandoraHeaderInfo 2 h2) chain2 rec2)
    as (H1 & H2 & _).
  - vm_compute. reflexivity.
  - reflexivity.
  - reflexivity.
  - split; [exact H1 | exact H2].
Defined.

(** An unreadable tip, and a head pointer without a record. *)
Lemma corrupted_store_witness :
  processPandoraHeader (Some (mkPandoraHeaderInfo 9 hOrphan)) (blindDisk chain1)
  = (blindDisk chain1,
     Return (Some (errors_Wrap ioError
                     "DB is corrupted! Failed to retrieve latest shard info"))) ∧
  processVanguardShardInfo now (Some v1) headless
  = (headless, Return (Some (errors_New "nil latest shard info"))).
Proof.
  destruct (corrupted_store_stops_entry_points
              (D := DB) (PC := gmap N PanCacheEntry) (VC := gmap N VanCacheEntry))
    as (H1 & _ & _ & H4).
  split.
  - apply H1; vm_compute; reflexivity.
  - apply (H4 now v1 headless None); vm_compute; reflexivity.
Defined.

(** A shard on top of an unknown block, at [chain1]. *)
Lemma failed_reorg_check_witness :
  processVanguardShardInfo now (Some vStray) chain1 = (chain1, Return None).
Proof.
  apply (failed_reorg_check_drops_shard now vStray chain1 (Some rec1)
                                        (errors_New "no common ancestor"));
    vm_compute; reflexivity.
Defined.

(** Slot 1 while another call holds it. *)
Lemma slot_in_progress_witness :
  ((processPandoraHeader (Some (mkPandoraHeaderInfo 1 h1)) Held.busy).2
   = Return (Some alreadyInProgress) ∧
   published Held.busy (processPandoraHeader (Some (mkPandoraHeaderInfo 1 h1)) Held.busy).1
   = []) ∧
  ((processVanguardShardInfo now (Some v1) Held.busy).2 = Return (Some alreadyInProgress) ∧
   published Held.busy (processVanguardShardInfo now (Some v1) Held.busy).1 = []).
Proof.
  destruct (slot_in_progress_is_surfaced
              (D := DB) (PC := Held.PanCache) (VC := Held.VanCache)) as [Hp Hv].
  split.
  - destruct (Hp (mkPandoraHeaderInfo 1 h1) Held.busy None
                 (Held.mkPanCache (<[1 := mkPanCacheEntry (Some h1) None false]> ∅) {[1]})
                 (Held.mkPanCache (<[1 := mkPanCacheEntry (Some h1) None false]> ∅) {[1]})
                 alreadyInProgress) as (H1 & H2 & _).
    + vm_compute. reflexivity.
    + vm_compute. reflexivity.
    + vm_compute. reflexivity.
    + vm_compute. reflexivity.
    + vm_compute. reflexivity.
    + split; [exact H1 | exact H2].
  - destruct (Hv now v1 Held.busy None (None, 0)
                 (Held.mkVanCache (<[1 := mkVanCacheEntry (Some v1) None true false]> ∅) {[1]})
                 (Held.mkVanCache (<[1 := mkVanCacheEntry (Some v1) None true false]> ∅) {[1]})
                 alreadyInProgress) as (H1 & H2 & _).
    + vm_compute. reflexivity.
    + vm_compute. reflexivity.
    + vm_compute. reflexivity.
    + vm_compute. reflexivity.
    + vm_compute. discriminate.
    + vm_compute. reflexivity.
    + vm_compute. reflexivity.
    + split; [exact H1 | exact H2].
Defined.

(** The error of a failing disk is the one that comes back. *)
Lemma write_error_witness :
  ∃ s1 d2 err,
    reorgStep v1 (breakDisk genesis) = inr s1 ∧
    appendFailed (PrepareMultiShardData v1 h1 TotalExecutionShardCount ShardsPerVanBlock)
                 (db s1) d2 err ∧
    errors_Wrap ioError "failed to write shard info in db"
    = errors_Wrap err "failed to write shard info in db".
Proof.
  destruct (proj1 (insertIntoChain_error_is_write_failure v1 h1 None 0 (breakDisk genesis))
                  (errors_Wrap ioError "failed to write shard info in db"))
    as (s1 & d2 & err & _ & Er & Hf & He & _).
  - vm_compute. reflexivity.
  - by exists s1, d2, err.
Defined.

(** The commit of the fork pair evicts slot 4 from both caches. *)
Lemma eviction_witness :
  panHeaderCache (insertIntoChain v4f h4f (Some rec1) 1 forked).1
  = panForceDelSlot 4 (panHeaderCache forked) ∧
  vanShardCache (insertIntoChain v4f h4f (Some rec1) 1 forked).1
  = vanForceDelSlot 4 (vanShardCache forked) ∧
  vanGet 4 (vanShardCache forked) ≠ None.
Proof.
  destruct (proj1 (insertIntoChain_evicts_iff_verified v4f h4f (Some rec1) 1 forked))
    as (H1 & H2 & _).
  - vm_compute. apply list_elem_of_here.
  - split; [exact H1|]. split; [exact H2|]. vm_compute. discriminate.
Defined.

(** Slot 1 on a service with slots of zero seconds. *)
Lemma zero_slot_length_witness :
  processVanguardShardInfo now (Some v1) stopped
  = (stopped, Panic "runtime error: integer divide by zero").
Proof.
  apply (proj1 (zero_slot_length_panics now v1 stopped) None (None, 0));
    vm_compute; reflexivity.
Defined.

(** The header of slot 2 at [chain1], before its shard. *)
Lemma unpaired_header_witness :
  db (processPandoraHeader (Some (mkPandoraHeaderInfo 2 h2)) chain1).1 = db chain1 ∧
  vanShardCache (processPandoraHeader (Some (mkPandoraHeaderInfo 2 h2)) chain1).1
  = vanShardCache chain1 ∧
  panGet 2 (panHeaderCache (processPandoraHeader (Some (mkPandoraHeaderInfo 2 h2)) chain1).1)
  ≠ None.
Proof.
  destruct (proj1 (unpaired_input_leaves_store
                     (D := DB) (PC := gmap N PanCacheEntry) (VC := gmap N VanCacheEntry))
                  (mkPandoraHeaderInfo 2 h2) chain1) as (H1 & H2 & _).
  - intros entry Hget. vm_compute in Hget. discriminate.
  - split; [exact H1|]. split; [exact H2|]. vm_compute. discriminate.
Defined.

(** The [Invalid] answer to the mismatching header of slot 3 names the
    header and the cached shard. *)
Lemma event_names_input_witness :
  PandoraHeaderHash (mkSlotInfoWithStatus 0x33 0xCC Invalid) = hHash h3bad ∧
  ∃ entry vanShard,
    vanGet 3 (vanShardCache (onVan v3 chain2)) = Some entry ∧
    GetVanShard entry = Some vanShard ∧
    VanguardBlockHash (mkSlotInfoWithStatus 0x33 0xCC Invalid) = vBlockRoot vanShard.
Proof.
  destruct (proj2 (published_events_name_the_input
                     (D := DB) (PC := gmap N PanCacheEntry) (VC := gmap N VanCacheEntry))
                  (mkPandoraHeaderInfo 3 h3bad) (onVan v3 chain2)
                  (mkSlotInfoWithStatus 0x33 0xCC Invalid)) as [H1 [H2|[H2|H2]]].
  - vm_compute. apply list_elem_of_here.
  - destruct H2 as (m & _ & _ & H2). discriminate H2.
  - destruct H2 as [H2 _]. vm_compute in H2. discriminate H2.
  - split; [exact H1 | exact H2].
Defined.

(** The first append on the empty store. *)
Lemma append_lookup_witness :
  LatestStepID (writeShardInfoInDB rec1 emptyDB).1 = 1 ∧
  getShardingInfo 1 (withDB genesis (writeShardInfoInDB rec1 emptyDB).1) = Some rec1.
Proof.
  destruct (append_then_getShardingInfo
              readable mem_lawfulStore rec1 genesis
              (withDB genesis (writeShardInfoInDB rec1 emptyDB).1)) as [H1 H2].
  - reflexivity.
  - vm_compute. reflexivity.
  - split; [exact H1 | exact H2].
Defined.

(** Slot 1 is committed at genesis; its header is then answered from
    the store. *)
Lemma header_replay_witness :
  processPandoraHeader (Some (mkPandoraHeaderInfo 1 h1))
                       (insertIntoChain v1 h1 None 0 genesis).1
  = (publishBlockConfirmation 0x11 0xAA Verified (insertIntoChain v1 h1 None 0 genesis).1,
     Return None).
Proof.
  apply (committed_header_is_republished readable mem_lawfulStore v1 h1 None 0 genesis).
  - exact mem_preparedNamesPair.
  - reflexivity.
  - vm_compute. apply list_elem_of_here.
Defined.

(** ... and its shard is not. *)
Lemma shard_replay_witness :
  processVanguardShardInfo now (Some v1) (insertIntoChain v1 h1 None 0 genesis).1
  = vanguardNormalPath now v1 (insertIntoChain v1 h1 None 0 genesis).1 ∧
  published (insertIntoChain v1 h1 None 0 genesis).1
            (processVanguardShardInfo now (Some v1)
                                      (insertIntoChain v1 h1 None 0 genesis).1).1 = [].
Proof.
  destruct (committed_shard_is_not_republished
              readable mem_lawfulStore now v1 h1 None 0 genesis) as (H1 & H2 & _).
  - exact mem_preparedNamesPair.
  - exact mem_evictionRemoves.
  - reflexivity.
  - vm_compute. apply list_elem_of_here.
  - split; [exact H1 | exact H2].
Defined.

End MoreRuns.

(** ** The container orchestrator *)

Section DockerFacts.
Import Docker.
Context {W : Type} `{!API W}.

Implicit Types (o : Orchestrator) (w : W) (c : Container).

Lemma find_loop imageName (l acc : list Container) :
  fold_left (λ containerList runningContainer,
               if String.eqb imageName (cImage runningContainer)
               then containerList ++ [runningContainer] else containerList) l acc
  = acc ++ filter (λ c, cImage c = imageName) l.
Proof.
  revert acc. induction l as [|c l IH]; intros acc; simpl.
  - by rewrite app_nil_r.
  - rewrite IH. destruct (String.eqb imageName (cImage c)) eqn:E.
    + apply String.eqb_eq in E. rewrite filter_cons_True by done.
      by rewrite <- app_assoc.
    + apply String.eqb_neq in E. by rewrite filter_cons_False.
Qed.

Lemma find_with_client o imageName w all :
  dockerCli o ≠ None → ContainerList w = Ok all →
  findRunningContainerByImage o imageName w
  = Done (filter (λ c, cImage c = imageName) all, None).
Proof.
  intros Hc El. unfold findRunningContainerByImage, assureDockerClient.
  destruct (dockerCli o); [|done]. by rewrite El, find_loop.
Qed.

(** X15. [findRunningContainerByImage] returns the listed containers
    whose image is the requested one, all of them and in listing order;
    a failing listing comes back as the error with no container, and
    without a docker client the call panics. *)
Theorem find_by_image_filters_listing o imageName w :
  (dockerCli o = None →
   ∃ msg, findRunningContainerByImage o imageName w = Panics msg) ∧
  (dockerCli o ≠ None → ∀ err, ContainerList w = Err err →
   findRunningContainerByImage o imageName w = Done ([], Some err)) ∧
  (dockerCli o ≠ None → ∀ all, ContainerList w = Ok all →
   findRunningContainerByImage o imageName w
   = Done (filter (λ c, cImage c = imageName) all, None) ∧
   ∀ c, c ∈ filter (λ c, cImage c = imageName) all ↔ c ∈ all ∧ cImage c = imageName).
Proof.
  split; [|split].
  - intros E. unfold findRunningContainerByImage, assureDockerClient. rewrite E.
    by eexists.
  - intros Hc err El. unfold findRunningContainerByImage, assureDockerClient.
    destruct (dockerCli o); [|done]. by rewrite El.
  - intros Hc all El. split; [by apply find_with_client|].
    intros c. rewrite list_elem_of_filter. tauto.
Qed.

Lemma stop_loop (l : list Container) timeout w (err : option error) (errList : list error) :
  fold_left (λ acc containerToStop,
               match ContainerStop (cID containerToStop) timeout acc.1 with
               | (w', Some latestError) =>
                   (w', (Some latestError, acc.2.2 ++ [latestError]))
               | (w', None) => (w', acc.2)
               end) l (w, (err, errList))
  = (stopAll l timeout w,
     (match last (stopErrors l timeout w) with Some e => Some e | None => err end,
      errList ++ stopErrors l timeout w)).
Proof.
  revert w err errList. induction l as [|c l IH]; intros w err errList.
  - simpl. by rewrite app_nil_r.
  - cbn [fold_left stopAll stopErrors]. simpl fst.
    destruct (ContainerStop (cID c) timeout w) as [w' [e|]] eqn:Es; simpl.
    + rewrite IH. f_equal. f_equal.
      * rewrite last_cons. by destruct (last (stopErrors l timeout w')).
      * by rewrite <- app_assoc.
    + by rewrite IH.
Qed.

Lemma stop_with_client o l timeout w :
  dockerCli o ≠ None →
  stopContainers o l timeout w
  = Done (stopAll l timeout w, (last (stopErrors l timeout w), stopErrors l timeout w)).
Proof.
  intros Hc. unfold stopContainers, assureDockerClient.
  destruct (dockerCli o); [|done]. rewrite stop_loop. simpl.
  by destruct (last (stopErrors l timeout w)).
Qed.

(** X16. [stopContainers] tries every container of the list, also
    after a stop has failed: the daemon ends up as after all the stops
    in turn, [errList] holds the failures in order, and [err] is the
    last of them, so [err] is nil exactly when [errList] is empty. *)
Theorem stopContainers_tries_all o (l : list Container) timeout w :
  dockerCli o ≠ None →
  ∃ err errList,
    stopContainers o l timeout w = Done (stopAll l timeout w, (err, errList)) ∧
    errList = stopErrors l timeout w ∧
    err = last errList ∧
    (err = None ↔ errList = []) ∧
    (length errList ≤ length l)%nat.
Proof.
  intros Hc. exists (last (stopErrors l timeout w)), (stopErrors l timeout w).
  split; [by apply stop_with_client|]. split; [done|]. split; [done|]. split.
  - apply last_None.
  - clear Hc. revert w. induction l as [|c l IH]; intros w; simpl; [lia|].
    destruct (ContainerStop (cID c) timeout w).2; simpl;
      specialize (IH (ContainerStop (cID c) timeout w).1); lia.
Qed.

(** X17. [stopTekuCatalystImages] stops the containers of the catalyst
    image and no other: the teku containers it looks up (by client
    name, not by image) are never stopped.  A failing listing is
    returned with an empty [errList] and the daemon untouched. *)
Theorem stop_phase_stops_catalyst_only o timeout w :
  dockerCli o ≠ None →
  (∀ all, ContainerList w = Ok all →
     stopTekuCatalystImages o timeout w
     = stopContainers o (filter (λ c, cImage c = CatalystImage) all) timeout w) ∧
  (∀ err, ContainerList w = Err err →
     stopTekuCatalystImages o timeout w = Done (w, (Some err, []))).
Proof.
  intros Hc. split.
  - intros all El. unfold stopTekuCatalystImages.
    by rewrite !(find_with_client o _ w all Hc El).
  - intros err El. unfold stopTekuCatalystImages, findRunningContainerByImage,
      assureDockerClient.
    destruct (dockerCli o); [|done]. by rewrite El.
Qed.

(** X18. A client name that is not supported: [SpinEth1] answers with
    an error and does not touch docker, client or not; [SpinEth2] does
    the same when it has a docker client and panics when it has none,
    whatever the name. *)
Theorem unsupported_client_name o w clientName :
  (clientName ≠ CatalystClientName →
   SpinEth1 o clientName w
   = Done (w, (noBody, Some (notSupported clientName CatalystClientName)))) ∧
  (dockerCli o ≠ None → clientName ≠ TekuClientName →
   SpinEth2 o clientName w
   = Done (w, (noBody, Some (notSupported clientName TekuClientName)))) ∧
  (dockerCli o = None → ∃ msg, SpinEth2 o clientName w = Panics msg).
Proof.
  split; [|split].
  - intros Hn. unfold SpinEth1.
    destruct (String.eqb CatalystClientName clientName) eqn:E; [|done].
    apply String.eqb_eq in E. by destruct Hn.
  - intros Hc Hn. unfold SpinEth2, assureDockerClient.
    destruct (dockerCli o); [|done].
    destruct (String.eqb TekuClientName clientName) eqn:E; [|done].
    apply String.eqb_eq in E. by destruct Hn.
  - intros E. unfold SpinEth2, assureDockerClient. rewrite E. by eexists.
Qed.

Lemma running_image_is_refused o imageName w all c :
  dockerCli o ≠ None → ContainerList w = Ok all →
  c ∈ all → cImage c = imageName →
  isContainerRunningWithImage o imageName w = Done (Some shouldNotRun).
Proof.
  intros Hc El Hin Himg. unfold isContainerRunningWithImage.
  rewrite (find_with_client o imageName w all Hc El).
  destruct (filter (λ c, cImage c = imageName) all) as [|x l] eqn:Ef; [|done].
  assert (Hx : c ∈ filter (λ c, cImage c = imageName) all).
  { apply list_elem_of_filter. done. }
  rewrite Ef in Hx. by apply elem_of_nil in Hx.
Qed.

(** X19. A container of the image is already running: [SpinEth1]
    (catalyst image) and [SpinEth2] (teku image) both refuse, create
    and start nothing, and both errors name the catalyst image. *)
Theorem running_container_blocks_spin o w all c :
  dockerCli o ≠ None → ContainerList w = Ok all → c ∈ all →
  (cImage c = CatalystImage →
   SpinEth1 o CatalystClientName w = Done (w, (noBody, Some shouldNotRun))) ∧
  (cImage c = TekuImage →
   SpinEth2 o TekuClientName w = Done (w, (noBody, Some shouldNotRun))).
Proof.
  intros Hc El Hin. split; intros Himg.
  - unfold SpinEth1. simpl negb. cbv iota.
    by rewrite (running_image_is_refused o CatalystImage w all c Hc El Hin Himg).
  - unfold SpinEth2, assureDockerClient.
    destruct (dockerCli o) eqn:Ed; [|done]. simpl negb. cbv iota.
    assert (Hc' : dockerCli o ≠ None) by by rewrite Ed.
    by rewrite (running_image_is_refused o TekuImage w all c Hc' El Hin Himg).
Qed.

(** X20. [Run] starts nothing when the stop phase reports an error, and
    a [Run] that returns no error has an empty [errList] and reports
    exactly two started containers. *)
Theorem run_reports_what_it_started o timeout w :
  (∀ w1 err errList,
     stopTekuCatalystImages o timeout w = Done (w1, (Some err, errList)) →
     Run o timeout w = Done (w1, (Some err, errList, []))) ∧
  (∀ w3 errList runningContainers,
     Run o timeout w = Done (w3, (None, errList, runningContainers)) →
     errList = [] ∧ length runningContainers = 2%nat).
Proof.
  split.
  - intros w1 err errList E. unfold Run. by rewrite E.
  - intros w3 errList runningContainers. unfold Run.
    destruct (stopTekuCatalystImages o timeout w) as [[w1 [[e|] el]]|msg] eqn:Es; try done.
    assert (Hel : el = []).
    { revert Es. unfold stopTekuCatalystImages, findRunningContainerByImage,
        assureDockerClient.
      destruct (dockerCli o) eqn:Ed; [|done].
      destruct (ContainerList w) as [all|err]; [|done].
      rewrite !find_loop. simpl.
      assert (Hc : dockerCli o ≠ None) by by rewrite Ed.
      rewrite (stop_with_client o _ timeout w Hc).
      intros [= _ Hl <-]. by apply last_None. }
    destruct (SpinEth1 o CatalystClientName w1) as [[w2 [b1 [e1|]]]|msg]; try done.
    destruct (SpinEth2 o TekuClientName w2) as [[w3' [b2 [e2|]]]|msg]; try done.
    intros [= _ <- <-]. done.
Qed.

End DockerFacts.

(** ** The mock backend *)

Section EventsFacts.
Import Events.
Context {EpochInfo : Type}.

(** X21. The mock's [ConsensusInfoByEpochRange] returns every stored
    info, in order, whatever [fromEpoch] is, and no error. *)
Theorem mock_epoch_range_returns_all (b : MockBackend (EpochInfo := EpochInfo)) fromEpoch :
  ConsensusInfoByEpochRange b fromEpoch = (ConsensusInfos b, None).
Proof.
  unfold ConsensusInfoByEpochRange. f_equal.
  assert (H : ∀ l acc : list (option EpochInfo),
            fold_left (λ consensusInfos consensusInfo, consensusInfos ++ [consensusInfo]) l acc
            = acc ++ l).
  { induction l as [|x l IH]; intros acc; simpl; [by rewrite app_nil_r|].
    by rewrite IH, <- app_assoc. }
  apply H.
Qed.

(** X22. The mock's [VerifiedSlotInfos] returns a map equal to the one
    stored, whatever [fromSlot] is and in whatever order the runtime
    ranges over the stored map. *)
Theorem mock_verified_slot_infos_copies (b : MockBackend (EpochInfo := EpochInfo))
    fromSlot (order : list (N * option SlotInfo)) :
  order ≡ₚ map_to_list (verifiedSlotInfos b) →
  VerifiedSlotInfos b fromSlot order = verifiedSlotInfos b.
Proof.
  intros Hperm. unfold VerifiedSlotInfos.
  assert (Hfold : ∀ (l : list (N * option SlotInfo)) (acc : gmap N (option SlotInfo)),
            fold_left (λ slotInfos kv, <[kv.1 := kv.2]> slotInfos) l acc
            = foldr (λ kv slotInfos, <[kv.1 := kv.2]> slotInfos) acc (reverse l)).
  { induction l as [|x l IH]; intros acc; simpl; [done|].
    by rewrite IH, reverse_cons, foldr_app. }
  rewrite Hfold.
  change (foldr (λ kv slotInfos, <[kv.1 := kv.2]> slotInfos) ∅ (reverse order))
    with (list_to_map (M := gmap N (option SlotInfo)) (reverse order)).
  transitivity (list_to_map (M := gmap N (option SlotInfo))
                            (map_to_list (verifiedSlotInfos b)));
    [|apply list_to_map_to_list].
  apply list_to_map_proper.
  - rewrite fmap_reverse, reverse_Permutation, Hperm.
    apply NoDup_fst_map_to_list.
  - by rewrite reverse_Permutation.
Qed.

End EventsFacts.

(** ** The tip of a header under a reorg *)

Section ReorgTip.
Context {D PC VC : Type}.
Context `{!Database D, !PandoraCache PC, !VanguardCache VC, !Verification D}.

(** X9. The header that the reorg in flight announced is cached and
    paired against the reorg's parent (record and step id); any other
    header is cached and paired against the tip of the store. *)
Theorem pandora_pairs_against_reorg_parent (hi : PandoraHeaderInfo)
    (s : Service D PC VC) latest :
  pandoraShortCircuit hi s = None →
  VerifiedShardInfo (LatestStepID (db s)) (db s) = Ok latest →
  (0 <? LatestStepID (db s)) && ptrIsNil latest = false →
  (∀ r, curReorgStatus s = Some r → rPandoraHash r = hHash (pHeader hi) →
        processPandoraHeader (Some hi) s
        = pandoraPair hi (rParentShardInfo r, rParentStepId r) s) ∧
  ((curReorgStatus s = None ∨
    ∃ r, curReorgStatus s = Some r ∧ rPandoraHash r ≠ hHash (pHeader hi)) →
   processPandoraHeader (Some hi) s = pandoraPair hi (latest, LatestStepID (db s)) s).
Proof.
  intros Esc Eread Enil.
  rewrite (pandora_reaches_pair hi s latest Esc Eread Enil). unfold pandoraTip.
  split.
  - intros r -> ->. by rewrite N.eqb_refl.
  - intros [-> | (r & -> & Hr%N.eqb_neq)]; [done | by rewrite Hr].
Qed.

End ReorgTip.

(** ** Runs of the orchestrator and of the mock *)

Section OtherRuns.
Import Mem Scenario Docker Events.

(** The header of the fork at [forked]. *)
Lemma reorg_tip_witness :
  processPandoraHeader (Some (mkPandoraHeaderInfo 4 h4f)) forked
  = pandoraPair (mkPandoraHeaderInfo 4 h4f) (Some rec1, 1) forked.
Proof.
  destruct (pandora_pairs_against_reorg_parent
              (mkPandoraHeaderInfo 4 h4f) forked (Some rec3)) as [H _].
  - vm_compute. reflexivity.
  - vm_compute. reflexivity.
  - vm_compute. reflexivity.
  - apply (H forkStatus).
    + vm_compute. reflexivity.
    + reflexivity.
Defined.

(** The catalyst containers of [crowded]. *)
Lemma find_witness :
  findRunningContainerByImage withClient CatalystImage crowded
  = Done ([mkContainer "a" CatalystImage; mkContainer "c" CatalystImage], None) ∧
  (∃ msg, findRunningContainerByImage withoutClient CatalystImage crowded = Panics msg).
Proof.
  destruct (find_by_image_filters_listing withClient CatalystImage crowded)
    as (_ & _ & H3).
  destruct (find_by_image_filters_listing withoutClient CatalystImage crowded)
    as (H1 & _ & _).
  split.
  - destruct (H3 ltac:(discriminate) (running crowded) eq_refl) as [H _]. exact H.
  - apply H1. reflexivity.
Defined.

(** Every container of [crowded] is stopped but the one that is stuck. *)
Lemma stop_witness :
  ∃ err errList,
    stopContainers withClient (running crowded) None crowded
    = Done (stopAll (running crowded) None crowded, (err, errList)) ∧
    errList = stopErrors (running crowded) None crowded ∧
    err = last errList ∧ (err = None ↔ errList = []) ∧
    (length errList ≤ length (running crowded))%nat.
Proof.
  apply (stopContainers_tries_all withClient (running crowded) None crowded).
  discriminate.
Defined.

(** The stop phase at [crowded]. *)
Lemma stop_phase_witness :
  stopTekuCatalystImages withClient None crowded
  = stopContainers withClient
                   [mkContainer "a" CatalystImage; mkContainer "c" CatalystImage]
                   None crowded.
Proof.
  destruct (stop_phase_stops_catalyst_only withClient None crowded) as [H _].
  - discriminate.
  - apply (H (running crowded)). reflexivity.
Defined.

(** The catalyst spin asked for a teku client, without docker. *)
Lemma unsupported_name_witness :
  SpinEth1 withoutClient TekuClientName idle
  = Done (idle, (noBody, Some (notSupported TekuClientName CatalystClientName))).
Proof.
  apply (proj1 (unsupported_client_name withoutClient idle TekuClientName)).
  discriminate.
Defined.

(** Both spins at [crowded]. *)
Lemma running_container_witness :
  SpinEth1 withClient CatalystClientName crowded = Done (crowded, (noBody, Some shouldNotRun)) ∧
  SpinEth2 withClient TekuClientName crowded = Done (crowded, (noBody, Some shouldNotRun)).
Proof.
  split.
  - destruct (running_container_blocks_spin
                withClient crowded (running crowded) (mkContainer "a" CatalystImage))
      as [H _].
    + discriminate.
    + reflexivity.
    + apply list_elem_of_here.
    + apply H. reflexivity.
  - destruct (running_container_blocks_spin
                withClient crowded (running crowded) (mkContainer "b" TekuImage))
      as [_ H].
    + discriminate.
    + reflexivity.
    + apply list_elem_of_further, list_elem_of_here.
    + apply H. reflexivity.
Defined.

(** [Run] at [crowded], where a stop fails, and at [idle]. *)
Lemma run_witness :
  (∃ w1 err errList, Run withClient None crowded = Done (w1, (Some err, errList, []))) ∧
  (∃ w3 errList runningContainers,
     Run withClient None idle = Done (w3, (None, errList, runningContainers)) ∧
     errList = [] ∧ length runningContainers = 2%nat).
Proof.
  split.
  - eexists _, _, _.
    apply (proj1 (run_reports_what_it_started withClient None crowded)).
    vm_compute. reflexivity.
  - assert (E : ∃ w3 errList runningContainers,
               Run withClient None idle = Done (w3, (None, errList, runningContainers))).
    { eexists _, _, _. vm_compute. reflexivity. }
    destruct E as (w3 & errList & runningContainers & E).
    exists w3, errList, runningContainers. split; [exact E|].
    apply (proj2 (run_reports_what_it_started withClient None idle) w3). exact E.
Defined.

(** A mock with two slots, asked from slot 7 on. *)
Lemma mock_copy_witness :
  VerifiedSlotInfos twoSlots 7
    [(1, Some (mkSlotInfo 0x11 0xAA)); (2, Some (mkSlotInfo 0x22 0xBB))]
  = verifiedSlotInfos twoSlots.
Proof.
  apply (mock_verified_slot_infos_copies twoSlots 7).
  vm_compute. solve [reflexivity | apply perm_swap].
Defined.

End OtherRuns.
